(** * Calculadora de Pagamentos: the payroll engine of
      [calculadora_pagamento033.py]

    The development embeds the calculation part of the program: the helper
    functions [count_uteis], [calc_inss], [calc_irrf], [val_hora],
    [calc_h_extra] and the method [Calculadora.calcular].

    Conventions of the embedding.
    - Python [float] amounts are exact rationals ([Q]); amounts are compared
      with [==].  The bound [float("inf")] of the last income-tax row is an
      absent bound ([None]).
    - Python [int] values are [Z].
    - A [StringVar] that the code only converts with [float()] or [int()] is
      an [entry]: empty text, text the conversion rejects, or text with its
      converted value.  The year is kept as text, because the code inspects
      its characters.
    - Exceptions are a [result]; the two modal dialogs are nodes of a [run],
      answered by the user. *)

From Stdlib Require Import ZArith QArith Qabs Qminmax Lqa Lia List String Ascii Bool.
From Stdlib Require Import Qround.
Import ListNotations.

Local Open Scope Z_scope.
Local Open Scope Q_scope.

(** ** Comparisons on amounts, as booleans *)

Definition Qltb (a b : Q) : bool := negb (Qle_bool b a).
Definition Qleb (a b : Q) : bool := Qle_bool a b.

(** ** Exceptions *)

Inductive exn : Type :=
| ValueError
| IllegalMonthError
| UnboundLocalError
| OverflowError.

Inductive result (A : Type) : Type :=
| Ok (a : A)
| Raise (e : exn).

Arguments Ok {A} a.
Arguments Raise {A} e.

Definition bind {A B : Type} (r : result A) (k : A -> result B) : result B :=
  match r with
  | Ok a => k a
  | Raise e => Raise e
  end.

(** ** The calendar: [calendar.monthrange] and [datetime.date] *)

Module Calendar.

(** [calendar.isleap] *)
Definition isleap (year : Z) : bool :=
  ((year mod 4 =? 0) && (negb (year mod 100 =? 0) || (year mod 400 =? 0)))%Z.

(** [calendar.mdays] *)
Definition mdays : list Z := [0; 31; 28; 31; 30; 31; 30; 31; 31; 30; 31; 30; 31]%Z.

(** [monthrange(year, month)[1]]: the number of days of the month;
    [IllegalMonthError] when the month is not in 1..12. *)
Definition monthrange (year month : Z) : result Z :=
  if ((1 <=? month) && (month <=? 12))%Z
  then Ok (nth (Z.to_nat month) mdays 0 +
           (if (month =? 2)%Z && isleap year then 1 else 0))%Z
  else Raise IllegalMonthError.

(** [datetime._days_before_year] *)
Definition days_before_year (year : Z) : Z :=
  (let y := year - 1 in y * 365 + y / 4 - y / 100 + y / 400)%Z.

(** [datetime._DAYS_BEFORE_MONTH] *)
Definition DAYS_BEFORE_MONTH : list Z :=
  [0; 0; 31; 59; 90; 120; 151; 181; 212; 243; 273; 304; 334]%Z.

(** [datetime._days_before_month] *)
Definition days_before_month (year month : Z) : Z :=
  (nth (Z.to_nat month) DAYS_BEFORE_MONTH 0 +
   (if (2 <? month) && isleap year then 1 else 0))%Z.

(** [datetime._ymd2ord] *)
Definition ymd2ord (year month day : Z) : Z :=
  (days_before_year year + days_before_month year month + day)%Z.

(** [date(year, month, day).weekday()]: Monday is 0, Sunday is 6. *)
Definition weekday (year month day : Z) : Z :=
  ((ymd2ord year month day + 6) mod 7)%Z.

(** The checks of the constructor [date(year, month, day)]. *)
Definition date_ok (year month day : Z) : bool :=
  ((1 <=? year) && (year <=? 9999) && (1 <=? month) && (month <=? 12) &&
   (1 <=? day) &&
   (day <=? nth (Z.to_nat month) mdays 0 +
            (if (month =? 2) && isleap year then 1 else 0)))%Z.

End Calendar.

(** ** Funções auxiliares *)

(** [current += timedelta(days=1)] on the day [current] of the month: the
    day after it (the day after the last one stands for the first of the
    next month).  There is no date after 31 December 9999, [date.max]:
    the addition raises [OverflowError]. *)
Definition dia_seguinte (y m current : Z) : result Z :=
  if ((y =? 9999) && (m =? 12) && (current =? 31))%Z
  then Raise OverflowError
  else Ok (current + 1)%Z.

(** The [while current <= end_date] loop of [count_uteis]: [n] days are left
    to visit, [current] is the day of the month being visited. *)
Fixpoint count_loop (y m current : Z) (n : nat) (count : Z) : result Z :=
  match n with
  | O => Ok count
  | S n' =>
      let count :=
        if (Calendar.weekday y m current <? 5)%Z then (count + 1)%Z else count in
      bind (dia_seguinte y m current) (fun current =>
      count_loop y m current n' count)
  end.

Definition count_uteis (y m start : Z) : result Z :=
  if Calendar.date_ok y m start then
    bind (Calendar.monthrange y m) (fun end_day =>
    count_loop y m start (Z.to_nat (end_day - start + 1)) 0%Z)
  else Raise ValueError.

Definition INSS_FAIXAS : list (Q * Q * Q) :=
  [ (1518.00, 0.075, 0.00);
    (2793.88, 0.09, 22.77);
    (4190.83, 0.12, 106.59);
    (8157.41, 0.14, 190.40) ].

Definition INSS_TETO : Q := 8157.41.

(** The [for faixa, pct, ded in reversed(INSS_FAIXAS)] loop, on the rows
    still to visit; [None] when the loop ends without a [return]. *)
Fixpoint inss_loop (sal : Q) (faixas : list (Q * Q * Q)) : option Q :=
  match faixas with
  | [] => None
  | (faixa, pct, ded) :: rest =>
      if Qltb faixa sal then Some (sal * pct - ded) else inss_loop sal rest
  end.

Definition calc_inss (sal : Q) : Q :=
  let sal := if Qltb INSS_TETO sal then INSS_TETO else sal in   (* min(sal, INSS_TETO) *)
  match inss_loop sal (rev INSS_FAIXAS) with
  | Some v => v
  | None => sal * snd (fst (nth 0 INSS_FAIXAS (0, 0, 0)))
  end.

(** The upper bound of a row of the income-tax table: [None] is
    [float("inf")]. *)
Definition IRRF_TABELA : list (option Q * Q * Q) :=
  [ (Some 2428.80, 0.00, 0.00);
    (Some 2826.65, 0.075, 182.16);
    (Some 3751.05, 0.15, 394.16);
    (Some 4664.68, 0.225, 675.49);
    (None, 0.275, 908.73) ].

(** [base <= faixa] *)
Definition abaixo (base : Q) (faixa : option Q) : bool :=
  match faixa with
  | Some f => Qleb base f
  | None => true
  end.

(** [max(0, base * pct - ded)]: the value a row gives. *)
Definition irrf_faixa (pct ded base : Q) : Q :=
  let v := base * pct - ded in
  if Qltb 0 v then v else 0.

Fixpoint irrf_loop (base : Q) (tabela : list (option Q * Q * Q)) : Q :=
  match tabela with
  | [] => 0
  | (faixa, pct, ded) :: rest =>
      if abaixo base faixa then irrf_faixa pct ded base else irrf_loop base rest
  end.

Definition calc_irrf (base : Q) : Q := irrf_loop base IRRF_TABELA.

Definition val_hora (d : Q) : Q :=
  if Qeq_bool d 0 then 0 else d / 8.

Definition calc_h_extra (vh h pct : Q) : Q :=
  vh * h * (1 + pct / 100).

(** ** The state of the form *)

(** The text of a numeric field, as the conversions of [calcular] see it.
    Where the code replaces ',' by '.' before converting, the replacement
    is part of the conversion. *)
Inductive entry (A : Type) : Type :=
| Vazio                 (* the empty string *)
| Invalido              (* text that the conversion rejects with ValueError *)
| Texto (a : A).        (* text that the conversion turns into [a] *)

Arguments Vazio {A}.
Arguments Invalido {A}.
Arguments Texto {A} a.

(** [float(text)] and [int(text)] *)
Definition converte {A : Type} (e : entry A) : result A :=
  match e with
  | Texto a => Ok a
  | Vazio | Invalido => Raise ValueError
  end.

(** [float(text if text else d)] *)
Definition converte_ou {A : Type} (e : entry A) (d : A) : result A :=
  match e with
  | Vazio => Ok d
  | Invalido => Raise ValueError
  | Texto a => Ok a
  end.

(** [try: x = float(text)] / [except: x = 0] *)
Definition converte_except (e : entry Q) : Q :=
  match converte e with
  | Ok a => a
  | Raise _ => 0
  end.

(** The variables of [Calculadora.__init__] that [calcular] reads. *)
Record Calculadora : Type := {
  tipo_contrato : string;      (* 'CLT', 'PJ', 'MEI' *)
  tipo_valor : string;         (* 'diario', 'total' *)
  tipo_calculo : string;       (* 'mes', 'data' *)
  valor : entry Q;
  mes : entry Z;
  ano : string;
  horas : entry Q;
  percentual : entry Q;
  paga_pensao : bool;
  tipo_pensao : string;        (* 'percent', 'fix' *)
  valor_pensao : entry Q;
  vr_fixo : bool;
  valor_vr_fixo : entry Q;
  valor_vr : entry Q;
  va_fixo : bool;
  valor_va_fixo : entry Q;
  valor_va : entry Q;
  vt_fixo : bool;
  valor_vt_fixo : entry Q;
  vt_percentual : entry Q;
  atraso_horas : entry Q;
  atraso_minutos : entry Q;
  faltas : entry Q
}.

(** [str.isdigit] and [int] on the text of the year (ASCII text). *)
Definition is_digit (c : ascii) : bool :=
  ((48 <=? nat_of_ascii c) && (nat_of_ascii c <=? 57))%nat.

Fixpoint all_digits (s : string) : bool :=
  match s with
  | EmptyString => true
  | String c r => is_digit c && all_digits r
  end.

Definition isdigit (s : string) : bool :=
  match s with
  | EmptyString => false
  | _ => all_digits s
  end.

Fixpoint int_digits (acc : Z) (s : string) : Z :=
  match s with
  | EmptyString => acc
  | String c r => int_digits (10 * acc + (Z.of_nat (nat_of_ascii c) - 48))%Z r
  end.

(** ** The pay slip and the ways [calcular] ends *)

(** The arguments of [mostrar_popup]. *)
Record Holerite : Type := {
  recebimentos : list (string * Q);
  descontos : list (string * Q);
  total_recebimento : Q;
  total_desconto : Q;
  liquido : Q
}.

Inductive saida : Type :=
| Popup (h : Holerite)        (* self.mostrar_popup(...) *)
| ErroAno                     (* showerror: 'Digite um ano com 4 dígitos válido' *)
| ErroPercentual              (* showerror: 'Informe o percentual das horas extras' *)
| ErroExcecao (e : exn)       (* except Exception as e: showerror f'Erro: {e}' *)
| Retorno.                    (* a bare [return] after a cancelled dialog *)

(** A run of [calcular]: it ends, or it opens one of the two dialogs and
    goes on with the answer ([None] when the dialog is cancelled). *)
Inductive run : Type :=
| Fim (s : saida)
| AskInteger (minvalue maxvalue : Z) (k : option Z -> run)
| MEIPopup (k : option Z -> run).

(** An exception inside the [try] block ends the run in the handler. *)
Definition tentar {A : Type} (r : result A) (k : A -> run) : run :=
  match r with
  | Ok a => k a
  | Raise e => Fim (ErroExcecao e)
  end.

Definition tentar_saida {A : Type} (r : result A) (k : A -> saida) : saida :=
  match r with
  | Ok a => k a
  | Raise e => ErroExcecao e
  end.

(** ** [Calculadora.calcular] *)

(** [# Ajuste de salário base]: gives [salario] and [dias_calc] to the rest
    of the method. *)
Definition ajuste_salario (self : Calculadora) (valor : Q) (dias : Z)
    (k : Q -> Z -> run) : run :=
  if (tipo_valor self =? "diario")%string then
    if (tipo_calculo self =? "mes")%string then
      k (valor * inject_Z dias) dias
    else
      AskInteger 1 dias (fun dia_ini =>
        match dia_ini with
        | None => Fim Retorno
        | Some dia_ini =>
            let dias_calc := (dias - dia_ini + 1)%Z in
            k (valor * inject_Z dias_calc) dias_calc
        end)
  else
    k valor dias.

(** [# Ajuste de pensão] *)
Definition ajuste_pensao (self : Calculadora) (salario : Q) : Q :=
  if paga_pensao self then
    if (tipo_pensao self =? "percent")%string then
      let perc := converte_except (valor_pensao self) in
      salario * perc / 100
    else
      converte_except (valor_pensao self)
  else 0.

(** [descontos.append((nome, v))] under [if v > 0] *)
Definition se_positivo (nome : string) (v : Q) : list (string * Q) :=
  if Qltb 0 v then [(nome, v)] else [].

(** The branch [if self.tipo_contrato.get() == 'CLT']. *)
Definition calcular_clt (self : Calculadora) (ano mes : Z) (valor : Q)
    (dias : Z) (salario : Q) (dias_calc : Z) (pensao : Q) : saida :=
  tentar_saida (converte_ou (horas self) 0) (fun h_extras =>
  tentar_saida (converte_ou (percentual self) 0) (fun perc_extra =>
  if Qltb 0 h_extras && Qeq_bool perc_extra 0 then ErroPercentual else
  let v_h := val_hora (if (tipo_valor self =? "diario")%string then valor
                       else salario / inject_Z dias_calc) in
  let val_h_extras :=
    if Qltb 0 h_extras then calc_h_extra v_h h_extras perc_extra else 0 in
  tentar_saida (converte_ou (atraso_horas self) 0) (fun atraso_h =>
  tentar_saida (converte_ou (atraso_minutos self) 0) (fun atraso_m =>
  let valor_atraso := v_h * (atraso_h + atraso_m / 60) in
  tentar_saida (converte_ou (faltas self) 0) (fun faltas =>
  let valor_falta :=
    if (tipo_valor self =? "diario")%string then valor * faltas
    else let valor_dia_mensal := salario / inject_Z dias in
         valor_dia_mensal * faltas in
  let salario_bruto := salario + val_h_extras in
  let inss := calc_inss salario_bruto in
  let base_irrf := salario_bruto - inss in
  let irrf := calc_irrf base_irrf in
  tentar_saida
    (if vt_fixo self then Ok (converte_except (valor_vt_fixo self))
     else bind (converte_ou (vt_percentual self) 6) (fun vt_pct =>
          let vt_pct := if Qltb 6 vt_pct then 6 else vt_pct in
          Ok (salario_bruto * vt_pct / 100))) (fun vt =>
  tentar_saida (count_uteis ano mes 1) (fun uteis =>
  tentar_saida
    (if vr_fixo self then Ok (converte_except (valor_vr_fixo self))
     else bind (converte_ou (valor_vr self) 0) (fun vr =>
          Ok (vr * inject_Z uteis * 0.2))) (fun desc_vr =>
  tentar_saida
    (if va_fixo self then Ok (converte_except (valor_va_fixo self))
     else bind (converte_ou (valor_va self) 0) (fun va =>
          Ok (va * inject_Z uteis * 0.2))) (fun desc_va =>
  let recebimentos :=
    [("Salário Bruto"%string, salario_bruto); ("Salário Base"%string, salario)]
    ++ se_positivo "Horas Extras" val_h_extras in
  let descontos :=
    [("INSS"%string, inss); ("IRRF"%string, irrf)]
    ++ se_positivo "Pensão Alimentícia" pensao
    ++ [("Vale Transporte"%string, vt)]
    ++ se_positivo "Vale Refeição" desc_vr
    ++ se_positivo "Vale Alimentação" desc_va
    ++ se_positivo "Atraso" valor_atraso
    ++ se_positivo "Faltas" valor_falta in
  let total_descontos :=
    inss + irrf + pensao + vt + desc_vr + desc_va + valor_atraso + valor_falta in
  let total_recebimentos := salario_bruto in
  let liquido := total_recebimentos - total_descontos in
  Popup {| recebimentos := recebimentos; descontos := descontos;
           total_recebimento := total_recebimentos;
           total_desconto := total_descontos;
           liquido := liquido |}))))))))).

(** The branch [elif self.tipo_contrato.get() == 'PJ']. *)
Definition calcular_pj (salario pensao : Q) : saida :=
  let irpj := salario * 0.15 in
  let csll := salario * 0.09 in
  let pis_cofins := salario * 0.065 in
  let iss := salario * 0.035 in
  let total_descontos := irpj + csll + pis_cofins + iss + pensao in
  let total_recebimentos := salario in
  let liquido := total_recebimentos - total_descontos in
  Popup {| recebimentos := [("Faturamento"%string, salario)];
           descontos :=
             [("IRPJ (15%)"%string, irpj); ("CSLL (9%)"%string, csll);
              ("PIS/COFINS (6,5%)"%string, pis_cofins); ("ISS (3,5%)"%string, iss)]
             ++ se_positivo "Pensão Alimentícia" pensao;
           total_recebimento := total_recebimentos;
           total_desconto := total_descontos;
           liquido := liquido |}.

Definition MEI_INSS : Q := 75.90.
Definition MEI_ICMS : Q := 1.00.
Definition MEI_ISS : Q := 5.00.

(** The branch [elif self.tipo_contrato.get() == 'MEI']. *)
Definition calcular_mei (salario pensao : Q) : run :=
  MEIPopup (fun tipo_ativ =>
    match tipo_ativ with
    | None => Fim Retorno
    | Some tipo_ativ =>
        let das :=
          if (tipo_ativ =? 1)%Z then MEI_INSS + MEI_ICMS
          else if (tipo_ativ =? 2)%Z then MEI_INSS + MEI_ISS
          else MEI_INSS + MEI_ICMS + MEI_ISS in
        let total_descontos := das + pensao in
        let total_recebimentos := salario in
        let liquido := total_recebimentos - total_descontos in
        Fim (Popup {| recebimentos := [("Faturamento"%string, salario)];
                      descontos := [("DAS (mensal)"%string, das)]
                                   ++ se_positivo "Pensão Alimentícia" pensao;
                      total_recebimento := total_recebimentos;
                      total_desconto := total_descontos;
                      liquido := liquido |})
    end).

Definition calcular (self : Calculadora) : run :=
  if negb (String.length (ano self) =? 4)%nat || negb (isdigit (ano self))
  then Fim ErroAno else
  tentar (converte (mes self)) (fun mes =>
  let ano := int_digits 0 (ano self) in
  tentar (converte (valor self)) (fun valor =>
  tentar (Calendar.monthrange ano mes) (fun dias =>
  ajuste_salario self valor dias (fun salario dias_calc =>
  let pensao := ajuste_pensao self salario in
  if (tipo_contrato self =? "CLT")%string then
    Fim (calcular_clt self ano mes valor dias salario dias_calc pensao)
  else if (tipo_contrato self =? "PJ")%string then
    Fim (calcular_pj salario pensao)
  else if (tipo_contrato self =? "MEI")%string then
    calcular_mei salario pensao
  else
    (* no branch assigns total_recebimentos: the call of mostrar_popup fails *)
    Fim (ErroExcecao UnboundLocalError))))).

(** ** The user at the dialogs *)

(** What the user answers: [None] cancels the dialog.  [askinteger] only
    returns an integer between its [minvalue] and [maxvalue]. *)
Record Usuario : Type := {
  dia_ini : option Z;       (* simpledialog.askinteger('Data Início', ...) *)
  tipo_ativ : option Z      (* MEIPopup(self).result *)
}.

(** The run played against the answers of the user. *)
Fixpoint executa (u : Usuario) (r : run) : saida :=
  match r with
  | Fim s => s
  | AskInteger _ _ k => executa u (k (dia_ini u))
  | MEIPopup k => executa u (k (tipo_ativ u))
  end.

(** Whether the run opens the activity dialog of the MEI branch. *)
Fixpoint abre_MEIPopup (u : Usuario) (r : run) : bool :=
  match r with
  | Fim _ => false
  | AskInteger _ _ k => abre_MEIPopup u (k (dia_ini u))
  | MEIPopup _ => true
  end.

(** The amount listed under a label of the pay slip. *)
Fixpoint valor_de (nome : string) (l : list (string * Q)) : option Q :=
  match l with
  | [] => None
  | (n, v) :: rest => if (n =? nome)%string then Some v else valor_de nome rest
  end.

(** ** Definitions used to state the properties *)

(** [salario] and [dias_calc] after [# Ajuste de salário base], from the
    answer of the user; [None] when the start-day dialog is cancelled. *)
Definition salario_e_dias (self : Calculadora) (u : Usuario) (valor : Q)
    (dias : Z) : option (Q * Z) :=
  if (tipo_valor self =? "diario")%string then
    if (tipo_calculo self =? "mes")%string then Some (valor * inject_Z dias, dias)
    else match dia_ini u with
         | None => None
         | Some d => Some (valor * inject_Z (dias - d + 1), (dias - d + 1)%Z)
         end
  else Some (valor, dias).

(** The year, the month and the base value are well formed, and the
    start-day dialog, when the form asks for it, is answered. *)
Definition entrada_valida (self : Calculadora) (u : Usuario) : bool :=
  (String.length (ano self) =? 4)%nat && isdigit (ano self) &&
  match converte (mes self), converte (valor self) with
  | Ok m, Ok _ =>
      match Calendar.monthrange (int_digits 0 (ano self)) m with
      | Ok _ => true
      | Raise _ => false
      end
  | _, _ => false
  end &&
  (if (tipo_valor self =? "diario")%string && negb (tipo_calculo self =? "mes")%string
   then match dia_ini u with Some _ => true | None => false end
   else true).

(** Where two rows of the income-tax table meet: the bound [t] of a row,
    the rate and deduction of that row, and those of the row after it. *)
Fixpoint fronteiras (tabela : list (option Q * Q * Q))
    : list (Q * (Q * Q) * (Q * Q)) :=
  match tabela with
  | (Some t, pct, ded) :: rest =>
      match rest with
      | (_, pct', ded') :: _ => (t, (pct, ded), (pct', ded')) :: fronteiras rest
      | [] => []
      end
  | _ => []
  end.

(** The step of the tax at a boundary: what the next row gives at [t] minus
    what the row ending at [t] gives there. *)
Definition salto (f : Q * (Q * Q) * (Q * Q)) : Q :=
  let '(t, (pct, ded), (pct', ded')) := f in
  irrf_faixa pct' ded' t - irrf_faixa pct ded t.

(** A tolerance for comparing two binary64 results of a product and a
    difference of amounts below 10^4 (their rounding error is below
    10^-11). *)
Definition tolerancia_float : Q := 1 # 1000000000.

(** An amount field whose text does not convert, retyped as "0". *)
Definition zero_se_invalido (e : entry Q) : entry Q :=
  match e with
  | Texto a => Texto a
  | Vazio | Invalido => Texto 0
  end.

(** The form with "0" typed in the fixed-amount fields of the three vouchers
    and in the alimony field, where their text does not convert. *)
Definition digita_zero (self : Calculadora) : Calculadora :=
  {| tipo_contrato := tipo_contrato self; tipo_valor := tipo_valor self;
     tipo_calculo := tipo_calculo self; valor := valor self; mes := mes self;
     ano := ano self; horas := horas self; percentual := percentual self;
     paga_pensao := paga_pensao self; tipo_pensao := tipo_pensao self;
     valor_pensao := zero_se_invalido (valor_pensao self);
     vr_fixo := vr_fixo self;
     valor_vr_fixo := zero_se_invalido (valor_vr_fixo self);
     valor_vr := valor_vr self;
     va_fixo := va_fixo self;
     valor_va_fixo := zero_se_invalido (valor_va_fixo self);
     valor_va := valor_va self;
     vt_fixo := vt_fixo self;
     valor_vt_fixo := zero_se_invalido (valor_vt_fixo self);
     vt_percentual := vt_percentual self;
     atraso_horas := atraso_horas self; atraso_minutos := atraso_minutos self;
     faltas := faltas self |}.

(** *** Forms and users of the examples *)

(** The form after [limpar], with the contract, the kind of value, the
    scope, the base value, the month and the year filled in. *)
Definition formulario (contrato tv tc : string) (v : Q) (m : Z) (a : string)
    : Calculadora :=
  {| tipo_contrato := contrato; tipo_valor := tv; tipo_calculo := tc;
     valor := Texto v; mes := Texto m; ano := a;
     horas := Vazio; percentual := Vazio;
     paga_pensao := false; tipo_pensao := "percent"; valor_pensao := Vazio;
     vr_fixo := false; valor_vr_fixo := Vazio; valor_vr := Vazio;
     va_fixo := false; valor_va_fixo := Vazio; valor_va := Vazio;
     vt_fixo := false; valor_vt_fixo := Vazio; vt_percentual := Texto 6;
     atraso_horas := Vazio; atraso_minutos := Vazio; faltas := Vazio |}.

(** CLT, 3000 for the month of June 2025, 10 overtime hours at 50%, alimony
    of 10 percent. *)
Definition clt_extras_pensao : Calculadora :=
  {| tipo_contrato := "CLT"; tipo_valor := "total"; tipo_calculo := "mes";
     valor := Texto 3000; mes := Texto 6%Z; ano := "2025";
     horas := Texto 10; percentual := Texto 50;
     paga_pensao := true; tipo_pensao := "percent"; valor_pensao := Texto 10;
     vr_fixo := false; valor_vr_fixo := Vazio; valor_vr := Vazio;
     va_fixo := false; valor_va_fixo := Vazio; valor_va := Vazio;
     vt_fixo := false; valor_vt_fixo := Vazio; vt_percentual := Texto 6;
     atraso_horas := Vazio; atraso_minutos := Vazio; faltas := Vazio |}.

(** CLT, 100 a day from a chosen day of June 2025, meal voucher of 10 a
    day, proportional. *)
Definition clt_diario_data : Calculadora :=
  {| tipo_contrato := "CLT"; tipo_valor := "diario"; tipo_calculo := "data";
     valor := Texto 100; mes := Texto 6%Z; ano := "2025";
     horas := Vazio; percentual := Vazio;
     paga_pensao := false; tipo_pensao := "percent"; valor_pensao := Vazio;
     vr_fixo := false; valor_vr_fixo := Vazio; valor_vr := Texto 10;
     va_fixo := false; valor_va_fixo := Vazio; valor_va := Vazio;
     vt_fixo := false; valor_vt_fixo := Vazio; vt_percentual := Texto 6;
     atraso_horas := Vazio; atraso_minutos := Vazio; faltas := Vazio |}.

(** CLT, 3000 for the month of June 2025, 2 overtime hours and no
    percentage. *)
Definition clt_extras_sem_percentual : Calculadora :=
  {| tipo_contrato := "CLT"; tipo_valor := "total"; tipo_calculo := "mes";
     valor := Texto 3000; mes := Texto 6%Z; ano := "2025";
     horas := Texto 2; percentual := Vazio;
     paga_pensao := false; tipo_pensao := "percent"; valor_pensao := Vazio;
     vr_fixo := false; valor_vr_fixo := Vazio; valor_vr := Vazio;
     va_fixo := false; valor_va_fixo := Vazio; valor_va := Vazio;
     vt_fixo := false; valor_vt_fixo := Vazio; vt_percentual := Texto 6;
     atraso_horas := Vazio; atraso_minutos := Vazio; faltas := Vazio |}.

(** CLT, 3000 for the month of June 2025, transport voucher of 10 percent. *)
Definition clt_vt_dez : Calculadora :=
  {| tipo_contrato := "CLT"; tipo_valor := "total"; tipo_calculo := "mes";
     valor := Texto 3000; mes := Texto 6%Z; ano := "2025";
     horas := Vazio; percentual := Vazio;
     paga_pensao := false; tipo_pensao := "percent"; valor_pensao := Vazio;
     vr_fixo := false; valor_vr_fixo := Vazio; valor_vr := Vazio;
     va_fixo := false; valor_va_fixo := Vazio; valor_va := Vazio;
     vt_fixo := false; valor_vt_fixo := Vazio; vt_percentual := Texto 10;
     atraso_horas := Vazio; atraso_minutos := Vazio; faltas := Vazio |}.

(** CLT, 3000 for the month of June 2025, the three vouchers as fixed
    deductions and a fixed alimony, none of the four amounts a number. *)
Definition clt_fixos_invalidos : Calculadora :=
  {| tipo_contrato := "CLT"; tipo_valor := "total"; tipo_calculo := "mes";
     valor := Texto 3000; mes := Texto 6%Z; ano := "2025";
     horas := Vazio; percentual := Vazio;
     paga_pensao := true; tipo_pensao := "fix"; valor_pensao := Invalido;
     vr_fixo := true; valor_vr_fixo := Invalido; valor_vr := Texto 30;
     va_fixo := true; valor_va_fixo := Vazio; valor_va := Texto 20;
     vt_fixo := true; valor_vt_fixo := Invalido; vt_percentual := Texto 6;
     atraso_horas := Vazio; atraso_minutos := Vazio; faltas := Vazio |}.

(** CLT, 3000 for the month of June 2025, 10 overtime hours at 50%,
    transport voucher of 10 percent. *)
Definition clt_extras_vt_dez : Calculadora :=
  {| tipo_contrato := "CLT"; tipo_valor := "total"; tipo_calculo := "mes";
     valor := Texto 3000; mes := Texto 6%Z; ano := "2025";
     horas := Texto 10; percentual := Texto 50;
     paga_pensao := false; tipo_pensao := "percent"; valor_pensao := Vazio;
     vr_fixo := false; valor_vr_fixo := Vazio; valor_vr := Vazio;
     va_fixo := false; valor_va_fixo := Vazio; valor_va := Vazio;
     vt_fixo := false; valor_vt_fixo := Vazio; vt_percentual := Texto 10;
     atraso_horas := Vazio; atraso_minutos := Vazio; faltas := Vazio |}.

(** PJ, 10000 a day for the whole of April 2025, alimony of 20 percent. *)
Definition pj_diario_pensao : Calculadora :=
  {| tipo_contrato := "PJ"; tipo_valor := "diario"; tipo_calculo := "mes";
     valor := Texto 10000; mes := Texto 4%Z; ano := "2025";
     horas := Vazio; percentual := Vazio;
     paga_pensao := true; tipo_pensao := "percent"; valor_pensao := Texto 20;
     vr_fixo := false; valor_vr_fixo := Vazio; valor_vr := Vazio;
     va_fixo := false; valor_va_fixo := Vazio; valor_va := Vazio;
     vt_fixo := false; valor_vt_fixo := Vazio; vt_percentual := Texto 6;
     atraso_horas := Vazio; atraso_minutos := Vazio; faltas := Vazio |}.

(** MEI, 100 a day from a chosen day of July 2025, alimony of 10 percent. *)
Definition mei_diario_data_pensao : Calculadora :=
  {| tipo_contrato := "MEI"; tipo_valor := "diario"; tipo_calculo := "data";
     valor := Texto 100; mes := Texto 7%Z; ano := "2025";
     horas := Vazio; percentual := Vazio;
     paga_pensao := true; tipo_pensao := "percent"; valor_pensao := Texto 10;
     vr_fixo := false; valor_vr_fixo := Vazio; valor_vr := Vazio;
     va_fixo := false; valor_va_fixo := Vazio; valor_va := Vazio;
     vt_fixo := false; valor_vt_fixo := Vazio; vt_percentual := Texto 6;
     atraso_horas := Vazio; atraso_minutos := Vazio; faltas := Vazio |}.

Definition sem_resposta : Usuario := {| dia_ini := None; tipo_ativ := None |}.
Definition dia_16 : Usuario := {| dia_ini := Some 16%Z; tipo_ativ := None |}.
Definition ambos : Usuario := {| dia_ini := None; tipo_ativ := Some 3%Z |}.
Definition dia_16_ambos : Usuario :=
  {| dia_ini := Some 16%Z; tipo_ativ := Some 3%Z |}.

(** The pay slip a run showed (an empty one when it showed none). *)
Definition holerite_de (s : saida) : Holerite :=
  match s with
  | Popup h => h
  | _ => {| recebimentos := []; descontos := []; total_recebimento := 0;
            total_desconto := 0; liquido := 0 |}
  end.

(** ** Definitions used to state further properties *)

(** The business days among [n] consecutive days, the first of which falls
    on the weekday [w] (Monday is 0). *)
Fixpoint dias_uteis_desde (w : Z) (n : nat) : Z :=
  match n with
  | O => 0
  | S n' => ((if w <? 5 then 1 else 0) + dias_uteis_desde ((w + 1) mod 7) n')%Z
  end.

(** The sum of the amounts of a list of the pay slip. *)
Fixpoint soma (l : list (string * Q)) : Q :=
  match l with
  | [] => 0
  | (_, v) :: rest => v + soma rest
  end.

(** An amount field that does not hold a negative number. *)
Definition nao_negativa (e : entry Q) : bool :=
  match e with
  | Texto a => Qleb 0 a
  | Vazio | Invalido => true
  end.

(** No amount field of the form holds a negative number. *)
Definition sem_negativos (self : Calculadora) : bool :=
  nao_negativa (valor self) && nao_negativa (horas self) &&
  nao_negativa (percentual self) && nao_negativa (valor_pensao self) &&
  nao_negativa (valor_vr_fixo self) && nao_negativa (valor_vr self) &&
  nao_negativa (valor_va_fixo self) && nao_negativa (valor_va self) &&
  nao_negativa (valor_vt_fixo self) && nao_negativa (vt_percentual self) &&
  nao_negativa (atraso_horas self) && nao_negativa (atraso_minutos self) &&
  nao_negativa (faltas self).

(** The answers of the user are ones the dialogs can return along the run:
    [askinteger] an integer between [minvalue] and [maxvalue], [MEIPopup]
    one of 1, 2, 3; or [None]. *)
Fixpoint respeita_limites (u : Usuario) (r : run) : bool :=
  match r with
  | Fim _ => true
  | AskInteger minvalue maxvalue k =>
      match dia_ini u with
      | Some d => ((minvalue <=? d) && (d <=? maxvalue))%Z
      | None => true
      end && respeita_limites u (k (dia_ini u))
  | MEIPopup k =>
      match tipo_ativ u with
      | Some t => ((1 <=? t) && (t <=? 3))%Z
      | None => true
      end && respeita_limites u (k (tipo_ativ u))
  end.

(** ** The widgets of the form *)


(** The widgets that the callbacks show, hide, enable or disable. *)
Inductive widget : Type :=
| label_horas | entry_horas | label_perc | entry_perc
| atraso_frame | faltas_frame | vr_frame | va_frame | vt_frame
| chk_pensao | frame_pensao
| entry_vr_fixo | entry_vr | entry_va_fixo | entry_va
| entry_vt_fixo | entry_vt_percent | entry_pct | entry_fixo.

Definition widget_index (x : widget) : nat :=
  match x with
  | label_horas => 0 | entry_horas => 1 | label_perc => 2 | entry_perc => 3
  | atraso_frame => 4 | faltas_frame => 5 | vr_frame => 6 | va_frame => 7
  | vt_frame => 8 | chk_pensao => 9 | frame_pensao => 10
  | entry_vr_fixo => 11 | entry_vr => 12 | entry_va_fixo => 13 | entry_va => 14
  | entry_vt_fixo => 15 | entry_vt_percent => 16 | entry_pct => 17
  | entry_fixo => 18
  end.

Definition widget_eqb (x y : widget) : bool :=
  (widget_index x =? widget_index y)%nat.

(** The [state] option of an entry. *)
Inductive estado : Type := normal | disabled.

(** What the callbacks change of a widget: its state and whether it is on
    the grid. *)
Record config : Type := { state : estado; gridded : bool }.

Definition Widgets : Type := widget -> config.

(** [x.config(state=s)] *)
Definition config_state (x : widget) (s : estado) (w : Widgets) : Widgets :=
  fun y => if widget_eqb y x
           then {| state := s; gridded := gridded (w y) |} else w y.

(** [x.grid()] *)
Definition grid (x : widget) (w : Widgets) : Widgets :=
  fun y => if widget_eqb y x
           then {| state := state (w y); gridded := true |} else w y.

(** [x.grid_remove()] *)
Definition grid_remove (x : widget) (w : Widgets) : Widgets :=
  fun y => if widget_eqb y x
           then {| state := state (w y); gridded := false |} else w y.

(** The statements of a callback, one after the other. *)
Definition em_ordem (passos : list (Widgets -> Widgets)) (w : Widgets) : Widgets :=
  fold_left (fun w passo => passo w) passos w.

Definition toggle_vr_fixo (self : Calculadora) (w : Widgets) : Widgets :=
  if vr_fixo self then
    em_ordem [config_state entry_vr_fixo normal;
              config_state entry_vr disabled] w
  else
    em_ordem [config_state entry_vr_fixo disabled;
              config_state entry_vr normal] w.

Definition toggle_va_fixo (self : Calculadora) (w : Widgets) : Widgets :=
  if va_fixo self then
    em_ordem [config_state entry_va_fixo normal;
              config_state entry_va disabled] w
  else
    em_ordem [config_state entry_va_fixo disabled;
              config_state entry_va normal] w.

Definition toggle_vt_fixo (self : Calculadora) (w : Widgets) : Widgets :=
  if vt_fixo self then
    em_ordem [config_state entry_vt_fixo normal;
              config_state entry_vt_percent disabled] w
  else
    em_ordem [config_state entry_vt_fixo disabled;
              config_state entry_vt_percent normal] w.

Definition atualizar_pensao (self : Calculadora) (w : Widgets) : Widgets :=
  if paga_pensao self then
    if (tipo_pensao self =? "percent")%string then
      em_ordem [grid frame_pensao;
                config_state entry_pct normal;
                config_state entry_fixo disabled] w
    else
      em_ordem [grid frame_pensao;
                config_state entry_pct disabled;
                config_state entry_fixo normal] w
  else
    grid_remove frame_pensao w.

Definition atualizar_campos (self : Calculadora) (w : Widgets) : Widgets :=
  let c := tipo_contrato self in
  let w :=
    if (c =? "CLT")%string then
      em_ordem [grid label_horas; grid entry_horas; grid label_perc;
                grid entry_perc; grid atraso_frame; grid faltas_frame;
                grid vr_frame; grid va_frame; grid vt_frame;
                grid chk_pensao] w
    else if (c =? "PJ")%string then
      em_ordem [grid_remove label_horas; grid_remove entry_horas;
                grid_remove label_perc; grid_remove entry_perc;
                grid_remove atraso_frame; grid_remove faltas_frame;
                grid_remove vr_frame; grid_remove va_frame;
                grid_remove vt_frame; grid chk_pensao] w
    else
      em_ordem [grid_remove label_horas; grid_remove entry_horas;
                grid_remove label_perc; grid_remove entry_perc;
                grid_remove atraso_frame; grid_remove faltas_frame;
                grid_remove vr_frame; grid_remove va_frame;
                grid_remove vt_frame; grid chk_pensao] w in
  em_ordem [toggle_vr_fixo self; toggle_va_fixo self; toggle_vt_fixo self;
            atualizar_pensao self] w.

(** An entry can be typed in: it is enabled and the frame that holds it is
    on the grid. *)
Definition editavel (w : Widgets) (frame x : widget) : bool :=
  gridded (w frame) &&
  match state (w x) with normal => true | disabled => false end.

(** Two forms that differ at most in what the widgets [w] do not let the
    user reach: the text of an entry that is disabled or off the grid, and
    the choices inside a frame that is off the grid.  The entries and
    buttons are laid out in [create_widgets]: the overtime fields on their
    own, the lateness and absence fields in their frames, each voucher in
    its frame, the kind and the amount of the alimony in [frame_pensao]
    (both alimony entries hold the same variable). *)
Definition concorda (w : Widgets) (self self' : Calculadora) : Prop :=
  tipo_contrato self = tipo_contrato self' /\
  tipo_valor self = tipo_valor self' /\
  tipo_calculo self = tipo_calculo self' /\
  valor self = valor self' /\
  mes self = mes self' /\
  ano self = ano self' /\
  (gridded (w entry_horas) = true -> horas self = horas self') /\
  (gridded (w entry_perc) = true -> percentual self = percentual self') /\
  (gridded (w atraso_frame) = true ->
   atraso_horas self = atraso_horas self' /\
   atraso_minutos self = atraso_minutos self') /\
  (gridded (w faltas_frame) = true -> faltas self = faltas self') /\
  (gridded (w vr_frame) = true -> vr_fixo self = vr_fixo self') /\
  (editavel w vr_frame entry_vr_fixo = true ->
   valor_vr_fixo self = valor_vr_fixo self') /\
  (editavel w vr_frame entry_vr = true -> valor_vr self = valor_vr self') /\
  (gridded (w va_frame) = true -> va_fixo self = va_fixo self') /\
  (editavel w va_frame entry_va_fixo = true ->
   valor_va_fixo self = valor_va_fixo self') /\
  (editavel w va_frame entry_va = true -> valor_va self = valor_va self') /\
  (gridded (w vt_frame) = true -> vt_fixo self = vt_fixo self') /\
  (editavel w vt_frame entry_vt_fixo = true ->
   valor_vt_fixo self = valor_vt_fixo self') /\
  (editavel w vt_frame entry_vt_percent = true ->
   vt_percentual self = vt_percentual self') /\
  (gridded (w chk_pensao) = true -> paga_pensao self = paga_pensao self') /\
  (gridded (w frame_pensao) = true ->
   tipo_pensao self = tipo_pensao self' /\
   valor_pensao self = valor_pensao self').

(** The form with every field that [calcular] does not read emptied: the
    fields of the CLT branch under another contract, the amount of the
    mode a voucher is not in, the alimony fields when no alimony is paid,
    the scope when the value is not a daily one. *)
Definition apaga_inativos (self : Calculadora) : Calculadora :=
  let clt := (tipo_contrato self =? "CLT")%string in
  {| tipo_contrato := tipo_contrato self;
     tipo_valor := tipo_valor self;
     tipo_calculo := if (tipo_valor self =? "diario")%string
                     then tipo_calculo self else "mes"%string;
     valor := valor self; mes := mes self; ano := ano self;
     horas := if clt then horas self else Vazio;
     percentual := if clt then percentual self else Vazio;
     paga_pensao := paga_pensao self;
     tipo_pensao := if paga_pensao self then tipo_pensao self
                    else "percent"%string;
     valor_pensao := if paga_pensao self then valor_pensao self else Vazio;
     vr_fixo := clt && vr_fixo self;
     valor_vr_fixo := if clt && vr_fixo self then valor_vr_fixo self else Vazio;
     valor_vr := if clt && negb (vr_fixo self) then valor_vr self else Vazio;
     va_fixo := clt && va_fixo self;
     valor_va_fixo := if clt && va_fixo self then valor_va_fixo self else Vazio;
     valor_va := if clt && negb (va_fixo self) then valor_va self else Vazio;
     vt_fixo := clt && vt_fixo self;
     valor_vt_fixo := if clt && vt_fixo self then valor_vt_fixo self else Vazio;
     vt_percentual := if clt && negb (vt_fixo self) then vt_percentual self
                      else Vazio;
     atraso_horas := if clt then atraso_horas self else Vazio;
     atraso_minutos := if clt then atraso_minutos self else Vazio;
     faltas := if clt then faltas self else Vazio |}.

(** The widgets as [create_widgets] leaves them: all on the grid, the
    entries of the fixed voucher amounts disabled. *)
Definition widgets_iniciais : Widgets :=
  fun x =>
    match x with
    | entry_vr_fixo | entry_va_fixo | entry_vt_fixo =>
        {| state := disabled; gridded := true |}
    | _ => {| state := normal; gridded := true |}
    end.

(** [clt_vt_dez] with a text left in the disabled entry of the fixed
    transport amount. *)
Definition clt_vt_dez_resto : Calculadora :=
  {| tipo_contrato := "CLT"; tipo_valor := "total"; tipo_calculo := "mes";
     valor := Texto 3000; mes := Texto 6%Z; ano := "2025";
     horas := Vazio; percentual := Vazio;
     paga_pensao := false; tipo_pensao := "percent"; valor_pensao := Vazio;
     vr_fixo := false; valor_vr_fixo := Vazio; valor_vr := Vazio;
     va_fixo := false; valor_va_fixo := Vazio; valor_va := Vazio;
     vt_fixo := false; valor_vt_fixo := Invalido; vt_percentual := Texto 10;
     atraso_horas := Vazio; atraso_minutos := Vazio; faltas := Vazio |}.

(** CLT, 200 a day for the whole of June 2025, 10 overtime hours at 50%,
    1 hour 30 minutes late, 2 days absent. *)
Definition clt_atraso_faltas : Calculadora :=
  {| tipo_contrato := "CLT"; tipo_valor := "diario"; tipo_calculo := "mes";
     valor := Texto 200; mes := Texto 6%Z; ano := "2025";
     horas := Texto 10; percentual := Texto 50;
     paga_pensao := false; tipo_pensao := "percent"; valor_pensao := Vazio;
     vr_fixo := false; valor_vr_fixo := Vazio; valor_vr := Texto 30;
     va_fixo := false; valor_va_fixo := Vazio; valor_va := Vazio;
     vt_fixo := false; valor_vt_fixo := Vazio; vt_percentual := Texto 6;
     atraso_horas := Texto 1; atraso_minutos := Texto 30; faltas := Texto 2 |}.

(** ** [formatar] *)

(** Text is a list of characters here. *)
Definition texto (s : string) : list ascii := list_ascii_of_string s.

(** The character of a decimal digit. *)
Definition digito (d : Z) : ascii := ascii_of_nat (48 + Z.to_nat (d mod 10)).

(** The decimal digits of a non-negative integer, the most significant
    first; [fuel] is at least their number. *)
Fixpoint digitos_aux (fuel : nat) (n : Z) : list ascii :=
  match fuel with
  | O => []
  | S fuel' =>
      if (n <? 10)%Z then [digito n]
      else digitos_aux fuel' (n / 10) ++ [digito n]
  end.

Definition digitos (n : Z) : list ascii :=
  digitos_aux (S (Z.to_nat (Z.log2 n))) n.

(** The [,] option of the format: a separator every three digits, counted
    from the right.  The digits come least significant first, [k] of them
    are already in the current group. *)
Fixpoint agrupa_rev (sep : ascii) (k : nat) (l : list ascii) : list ascii :=
  match l with
  | [] => []
  | d :: rest =>
      if (k =? 3)%nat then sep :: d :: agrupa_rev sep 1 rest
      else d :: agrupa_rev sep (S k) rest
  end.

Definition agrupa (sep : ascii) (l : list ascii) : list ascii :=
  rev (agrupa_rev sep 0 (rev l)).

(** The hundredths nearest to a non-negative amount, a tie going to the
    even one, as the format [.2f] rounds the exact value. *)
Definition arredonda_centavos (x : Q) : Z :=
  let y := x * 100 in
  let f := Qfloor y in
  let r := y - inject_Z f in
  if Qltb r (1 # 2) then f
  else if Qltb (1 # 2) r then (f + 1)%Z
  else if Z.even f then f else (f + 1)%Z.

(** The sign, the whole part and the two decimals that [.2f] writes. *)
Definition sinal (val : Q) : list ascii :=
  if Qltb val 0 then ["-"%char] else [].

Definition decimais (c : Z) : list ascii := [digito (c / 10); digito c].

(** [f'{val:,.2f}'] *)
Definition format_2f (val : Q) : list ascii :=
  let c := arredonda_centavos (Qabs val) in
  sinal val ++ agrupa ","%char (digitos (c / 100)) ++ ["."%char]
  ++ decimais (c mod 100).

(** [s.replace(old, new)] for two strings of one character. *)
Definition replace (old new : ascii) (s : list ascii) : list ascii :=
  map (fun c => if Ascii.eqb c old then new else c) s.

Definition formatar (val : option Q) : list ascii :=
  match val with
  | None => texto "R$ 0,00"
  | Some val =>
      replace "X" "."
        (replace "." "," (replace "," "X" (texto "R$ " ++ format_2f val)))
  end.


(** ** When the CLT branch goes through *)

(** The conversion [float(text if text else d)] accepts the text. *)
Definition convertivel (e : entry Q) : bool :=
  match e with
  | Invalido => false
  | Vazio | Texto _ => true
  end.

(** What that conversion gives. *)
Definition valor_ou (e : entry Q) (d : Q) : Q :=
  match e with
  | Texto a => a
  | Vazio | Invalido => d
  end.

(** Every field that the CLT branch converts outside a [try] is accepted,
    and the overtime hours do not come without a percentage. *)
Definition campos_clt_validos (self : Calculadora) : bool :=
  convertivel (horas self) && convertivel (percentual self) &&
  negb (Qltb 0 (valor_ou (horas self) 0)
        && Qeq_bool (valor_ou (percentual self) 0) 0) &&
  convertivel (atraso_horas self) && convertivel (atraso_minutos self) &&
  convertivel (faltas self) &&
  (vt_fixo self || convertivel (vt_percentual self)) &&
  (vr_fixo self || convertivel (valor_vr self)) &&
  (va_fixo self || convertivel (valor_va self)).

(** * Properties *)

(** ** Comparisons *)

Lemma Qltb_true (a b : Q) : Qltb a b = true <-> a < b.
Proof.
  unfold Qltb. rewrite negb_true_iff, <- not_true_iff_false, Qle_bool_iff.
  split; [apply Qnot_le_lt | apply Qlt_not_le].
Qed.

Lemma Qltb_false (a b : Q) : Qltb a b = false <-> b <= a.
Proof.
  unfold Qltb. rewrite negb_false_iff. apply Qle_bool_iff.
Qed.

Lemma Qleb_true (a b : Q) : Qleb a b = true <-> a <= b.
Proof. apply Qle_bool_iff. Qed.

Lemma Qleb_false (a b : Q) : Qleb a b = false <-> b < a.
Proof.
  unfold Qleb. rewrite <- not_true_iff_false, Qle_bool_iff.
  split; [apply Qnot_le_lt | apply Qlt_not_le].
Qed.

(** Splits the goal on the first comparison of amounts it tests. *)
Ltac caso_Q :=
  match goal with
  | |- context [Qltb ?a ?b] =>
      let E := fresh "E" in
      destruct (Qltb a b) eqn:E;
      [apply Qltb_true in E | apply Qltb_false in E]
  | |- context [Qleb ?a ?b] =>
      let E := fresh "E" in
      destruct (Qleb a b) eqn:E;
      [apply Qleb_true in E | apply Qleb_false in E]
  end.

(** ** The two tax tables *)

(** The rows [calc_inss] ends up applying: the loop returns the rate and
    deduction of the highest row whose bound is below the capped salary. *)
Lemma calc_inss_faixas (sal : Q) :
  calc_inss sal ==
    let s := if Qltb INSS_TETO sal then INSS_TETO else sal in
    if Qltb 4190.83 s then s * 0.12 - 106.59
    else if Qltb 2793.88 s then s * 0.09 - 22.77
    else if Qltb 1518.00 s then s * 0.075 - 0.00
    else s * 0.075.
Proof.
  unfold calc_inss, INSS_FAIXAS, INSS_TETO. cbn [rev app inss_loop nth fst snd].
  cbv zeta.
  repeat caso_Q; try lra; reflexivity.
Qed.

(** C3. The social-security contribution does not decrease between two
    amounts of [0, 8157.41], and above the ceiling it is the contribution
    of the ceiling: [calc_inss 8157.41 == calc_inss (8157.41 + k)] for
    every [k > 0]. *)
Theorem calc_inss_monotone_and_capped (a b k : Q) :
  0 <= a -> a <= b -> b <= INSS_TETO -> 0 < k ->
  calc_inss a <= calc_inss b /\
  calc_inss INSS_TETO == calc_inss (INSS_TETO + k).
Proof.
  intros Ha Hab Hb Hk.
  rewrite !calc_inss_faixas. unfold INSS_TETO in *. cbv zeta.
  split; repeat caso_Q; lra.
Qed.

Lemma calc_inss_monotone_and_capped_witness :
  calc_inss 1000 <= calc_inss 3000 /\
  calc_inss INSS_TETO == calc_inss (INSS_TETO + 1000).
Proof.
  apply (calc_inss_monotone_and_capped 1000 3000 1000);
    unfold INSS_TETO; lra.
Defined.

(** The row [calc_irrf] applies to each base. *)
Lemma calc_irrf_faixas (base : Q) :
  calc_irrf base ==
    if Qleb base 2428.80 then 0
    else if Qleb base 2826.65 then irrf_faixa 0.075 182.16 base
    else if Qleb base 3751.05 then irrf_faixa 0.15 394.16 base
    else if Qleb base 4664.68 then irrf_faixa 0.225 675.49 base
    else irrf_faixa 0.275 908.73 base.
Proof.
  unfold calc_irrf, IRRF_TABELA. cbn [irrf_loop abaixo].
  repeat caso_Q; try reflexivity.
  unfold irrf_faixa. cbv zeta. caso_Q; lra.
Qed.

(** At each boundary [t] of the table, [calc_irrf t] is what the row ending
    at [t] gives, and the next row is the one [calc_irrf] applies to the
    bases right above [t]. *)
Lemma calc_irrf_around_boundary (f : Q * (Q * Q) * (Q * Q)) :
  In f (fronteiras IRRF_TABELA) ->
  let '(t, (pct, ded), (pct', ded')) := f in
  calc_irrf t == irrf_faixa pct ded t /\
  exists t', t < t' /\
    forall base, t < base -> base <= t' ->
      calc_irrf base == irrf_faixa pct' ded' base.
Proof.
  unfold fronteiras, IRRF_TABELA. cbn [In].
  intros [<- | [<- | [<- | [<- | []]]]];
    (split; [vm_compute; reflexivity |]).
  - exists 2826.65. split; [reflexivity |]. intros base H1 H2.
    rewrite calc_irrf_faixas. repeat caso_Q; try lra; reflexivity.
  - exists 3751.05. split; [reflexivity |]. intros base H1 H2.
    rewrite calc_irrf_faixas. repeat caso_Q; try lra; reflexivity.
  - exists 4664.68. split; [reflexivity |]. intros base H1 H2.
    rewrite calc_irrf_faixas. repeat caso_Q; try lra; reflexivity.
  - exists 5000. split; [reflexivity |]. intros base H1 H2.
    rewrite calc_irrf_faixas. repeat caso_Q; try lra; reflexivity.
Qed.

(** C9, as the claim states it, fails: at the boundary 2826.65 the row that
    ends there gives 29.83875 and the next row gives 29.8375; the step of
    1/800 is far above the tolerance of a floating-point comparison, in
    absolute terms and relative to the tax (more than 10^-5 of it), so the
    rows do not all agree within it. *)
Lemma calc_irrf_boundary_steps_exceed_float_tolerance :
  In (2826.65, (0.075, 182.16), (0.15, 394.16)) (fronteiras IRRF_TABELA) /\
  calc_irrf 2826.65 == 29.83875 /\
  irrf_faixa 0.15 394.16 2826.65 == 29.8375 /\
  salto (2826.65, (0.075, 182.16), (0.15, 394.16)) == - (1 # 800) /\
  (1 # 100000) * calc_irrf 2826.65
    < Qabs (salto (2826.65, (0.075, 182.16), (0.15, 394.16))) /\
  ~ Forall (fun f => Qabs (salto f) <= tolerancia_float)
           (fronteiras IRRF_TABELA).
Proof.
  split; [cbn; right; left; reflexivity |].
  do 4 (split; [vm_compute; reflexivity |]).
  intros H. unfold fronteiras, IRRF_TABELA in H.
  inversion H as [| ? ? _ H1]; subst.
  inversion H1 as [| ? ? H2 _]; subst.
  vm_compute in H2. apply H2. reflexivity.
Qed.

(** C9, amended. [calc_irrf] is 0 for every base at or below the first
    bound 2428.80; at the four boundaries of the table the next row and
    the row ending there differ by 0, -1/800, -1/800 and -3/500, hence by
    at most 0.006, less than one cent. *)
Theorem calc_irrf_zero_below_first_bound_and_steps_below_one_cent (base : Q) :
  base <= 2428.80 ->
  calc_irrf base == 0 /\
  map salto (fronteiras IRRF_TABELA)
    = [salto (2428.80, (0.00, 0.00), (0.075, 182.16));
       salto (2826.65, (0.075, 182.16), (0.15, 394.16));
       salto (3751.05, (0.15, 394.16), (0.225, 675.49));
       salto (4664.68, (0.225, 675.49), (0.275, 908.73))] /\
  Forall2 Qeq (map salto (fronteiras IRRF_TABELA))
    [0; - (1 # 800); - (1 # 800); - (3 # 500)] /\
  Forall (fun f => Qabs (salto f) <= 0.006) (fronteiras IRRF_TABELA).
Proof.
  intros Hb. split; [| split; [| split]].
  - rewrite calc_irrf_faixas. caso_Q; [reflexivity | lra].
  - reflexivity.
  - cbn [map fronteiras IRRF_TABELA]. repeat constructor; vm_compute; reflexivity.
  - unfold fronteiras, IRRF_TABELA. repeat constructor; vm_compute; discriminate.
Qed.

Lemma calc_irrf_zero_below_first_bound_and_steps_below_one_cent_witness :
  calc_irrf 2000 == 0 /\
  Forall (fun f => Qabs (salto f) <= 0.006) (fronteiras IRRF_TABELA).
Proof.
  destruct (calc_irrf_zero_below_first_bound_and_steps_below_one_cent 2000)
    as (H0 & _ & _ & H1); [lra |].
  split; assumption.
Defined.

(** ** The run of [calcular] *)

Lemma executa_ajuste_salario (self : Calculadora) (u : Usuario) (valor : Q)
    (dias : Z) (k : Q -> Z -> run) :
  executa u (ajuste_salario self valor dias k) =
    match salario_e_dias self u valor dias with
    | Some (salario, dias_calc) => executa u (k salario dias_calc)
    | None => Retorno
    end.
Proof.
  unfold ajuste_salario, salario_e_dias.
  destruct (tipo_valor self =? "diario")%string; [| reflexivity].
  destruct (tipo_calculo self =? "mes")%string; [reflexivity |].
  cbn [executa]. destruct (dia_ini u); reflexivity.
Qed.

(** The run against a user, step by step: the check of the year, the three
    conversions, the base salary, then the branch of the contract. *)
Lemma executa_calcular (self : Calculadora) (u : Usuario) :
  executa u (calcular self) =
    if negb (String.length (ano self) =? 4)%nat || negb (isdigit (ano self))
    then ErroAno else
    match converte (mes self) with
    | Raise e => ErroExcecao e
    | Ok m =>
    match converte (valor self) with
    | Raise e => ErroExcecao e
    | Ok v =>
    match Calendar.monthrange (int_digits 0 (ano self)) m with
    | Raise e => ErroExcecao e
    | Ok dias =>
    match salario_e_dias self u v dias with
    | None => Retorno
    | Some (salario, dias_calc) =>
        let pensao := ajuste_pensao self salario in
        if (tipo_contrato self =? "CLT")%string then
          calcular_clt self (int_digits 0 (ano self)) m v dias salario dias_calc pensao
        else if (tipo_contrato self =? "PJ")%string then
          calcular_pj salario pensao
        else if (tipo_contrato self =? "MEI")%string then
          executa u (calcular_mei salario pensao)
        else ErroExcecao UnboundLocalError
    end end end end.
Proof.
  unfold calcular, tentar.
  destruct (negb (String.length (ano self) =? 4)%nat || negb (isdigit (ano self)));
    [reflexivity |].
  destruct (converte (mes self)) as [m | e]; [| reflexivity].
  destruct (converte (valor self)) as [v | e]; [| reflexivity].
  destruct (Calendar.monthrange (int_digits 0 (ano self)) m) as [dias | e];
    [| reflexivity].
  rewrite executa_ajuste_salario.
  destruct (salario_e_dias self u v dias) as [[salario dias_calc] |];
    [| reflexivity].
  cbv zeta.
  destruct (tipo_contrato self =? "CLT")%string; [reflexivity |].
  destruct (tipo_contrato self =? "PJ")%string; [reflexivity |].
  destruct (tipo_contrato self =? "MEI")%string; reflexivity.
Qed.

(** A run that shows a pay slip went through every step. *)
Lemma executa_calcular_popup (self : Calculadora) (u : Usuario) (h : Holerite) :
  executa u (calcular self) = Popup h ->
  exists m v dias salario dias_calc,
    converte (mes self) = Ok m /\
    converte (valor self) = Ok v /\
    Calendar.monthrange (int_digits 0 (ano self)) m = Ok dias /\
    salario_e_dias self u v dias = Some (salario, dias_calc) /\
    (if (tipo_contrato self =? "CLT")%string then
       calcular_clt self (int_digits 0 (ano self)) m v dias salario dias_calc
         (ajuste_pensao self salario)
     else if (tipo_contrato self =? "PJ")%string then
       calcular_pj salario (ajuste_pensao self salario)
     else if (tipo_contrato self =? "MEI")%string then
       executa u (calcular_mei salario (ajuste_pensao self salario))
     else ErroExcecao UnboundLocalError) = Popup h.
Proof.
  rewrite executa_calcular.
  destruct (negb (String.length (ano self) =? 4)%nat || negb (isdigit (ano self)));
    [discriminate |].
  destruct (converte (mes self)) as [m | e] eqn:Em; [| discriminate].
  destruct (converte (valor self)) as [v | e] eqn:Ev; [| discriminate].
  destruct (Calendar.monthrange (int_digits 0 (ano self)) m) as [dias | e] eqn:Ed;
    [| discriminate].
  destruct (salario_e_dias self u v dias) as [[salario dias_calc] |] eqn:Es;
    [| discriminate].
  intros H. exists m, v, dias, salario, dias_calc.
  repeat split; first [reflexivity | assumption | exact H].
Qed.

Lemma tentar_saida_popup {A : Type} (r : result A) (k : A -> saida) (h : Holerite) :
  tentar_saida r k = Popup h -> exists a, r = Ok a /\ k a = Popup h.
Proof.
  destruct r as [a | e]; cbn; [eauto | discriminate].
Qed.

(** Opens the next [tentar_saida] of a CLT run that showed a pay slip. *)
Ltac proximo H a E :=
  apply tentar_saida_popup in H; destruct H as (a & E & H); cbv beta in H.

(** The pay slip of the CLT branch, with the amounts it was built from. *)
Lemma calcular_clt_popup (self : Calculadora) (ano mes : Z) (valor : Q)
    (dias : Z) (salario : Q) (dias_calc : Z) (pensao : Q) (h : Holerite) :
  calcular_clt self ano mes valor dias salario dias_calc pensao = Popup h ->
  exists h_extras perc_extra val_h_extras vt uteis desc_vr desc_va atraso falta,
    converte_ou (horas self) 0 = Ok h_extras /\
    converte_ou (percentual self) 0 = Ok perc_extra /\
    Qltb 0 h_extras && Qeq_bool perc_extra 0 = false /\
    val_h_extras =
      (if Qltb 0 h_extras
       then calc_h_extra
              (val_hora (if (tipo_valor self =? "diario")%string then valor
                         else salario / inject_Z dias_calc))
              h_extras perc_extra
       else 0) /\
    (if vt_fixo self then Ok (converte_except (valor_vt_fixo self))
     else bind (converte_ou (vt_percentual self) 6) (fun vt_pct =>
          Ok ((salario + val_h_extras) *
              (if Qltb 6 vt_pct then 6 else vt_pct) / 100))) = Ok vt /\
    count_uteis ano mes 1 = Ok uteis /\
    (if vr_fixo self then Ok (converte_except (valor_vr_fixo self))
     else bind (converte_ou (valor_vr self) 0) (fun vr =>
          Ok (vr * inject_Z uteis * 0.2))) = Ok desc_vr /\
    (if va_fixo self then Ok (converte_except (valor_va_fixo self))
     else bind (converte_ou (valor_va self) 0) (fun va =>
          Ok (va * inject_Z uteis * 0.2))) = Ok desc_va /\
    recebimentos h =
      [("Salário Bruto"%string, salario + val_h_extras);
       ("Salário Base"%string, salario)]
      ++ se_positivo "Horas Extras" val_h_extras /\
    descontos h =
      [("INSS"%string, calc_inss (salario + val_h_extras));
       ("IRRF"%string,
        calc_irrf (salario + val_h_extras - calc_inss (salario + val_h_extras)))]
      ++ se_positivo "Pensão Alimentícia" pensao
      ++ [("Vale Transporte"%string, vt)]
      ++ se_positivo "Vale Refeição" desc_vr
      ++ se_positivo "Vale Alimentação" desc_va
      ++ se_positivo "Atraso" atraso
      ++ se_positivo "Faltas" falta /\
    total_recebimento h = salario + val_h_extras /\
    total_desconto h =
      calc_inss (salario + val_h_extras)
      + calc_irrf (salario + val_h_extras - calc_inss (salario + val_h_extras))
      + pensao + vt + desc_vr + desc_va + atraso + falta /\
    liquido h = total_recebimento h - total_desconto h.
Proof.
  unfold calcular_clt. intros H.
  proximo H h_extras Eh. proximo H perc_extra Ep.
  destruct (Qltb 0 h_extras && Qeq_bool perc_extra 0) eqn:Echeck;
    [discriminate |].
  cbv zeta in H.
  proximo H atraso_h Eah. proximo H atraso_m Eam. proximo H faltas_ Ef.
  proximo H vt Evt. proximo H uteis Eu. proximo H desc_vr Evr.
  proximo H desc_va Eva.
  injection H as <-. cbn [recebimentos descontos total_recebimento total_desconto liquido].
  eexists h_extras, perc_extra, _, vt, uteis, desc_vr, desc_va, _, _.
  repeat (split; [first [eassumption | reflexivity] |]).
  reflexivity.
Qed.

(** Looks a label up in a list of the pay slip, on every case of the
    entries that are listed only when positive. *)
Ltac casos_listados :=
  unfold se_positivo;
  repeat match goal with
    | |- context [Qltb ?a ?b] => destruct (Qltb a b)
    end;
  reflexivity.

(** ** Alimony *)

(** C1, amended. In a CLT calculation with alimony elected as a percentage
    [p], the alimony is [p]/100 of the base salary ([Salário Base]),
    whatever the overtime; it is listed among the deductions when it is
    positive.  The gross pay is the base salary plus the overtime value. *)
Theorem alimony_percent_is_of_base_salary (self : Calculadora) (u : Usuario)
    (p : Q) (h : Holerite) :
  tipo_contrato self = "CLT"%string ->
  paga_pensao self = true ->
  tipo_pensao self = "percent"%string ->
  valor_pensao self = Texto p ->
  executa u (calcular self) = Popup h ->
  exists salario val_h_extras,
    recebimentos h =
      [("Salário Bruto"%string, salario + val_h_extras);
       ("Salário Base"%string, salario)]
      ++ se_positivo "Horas Extras" val_h_extras /\
    total_recebimento h = salario + val_h_extras /\
    valor_de "Pensão Alimentícia" (descontos h) =
      (if Qltb 0 (salario * p / 100) then Some (salario * p / 100) else None).
Proof.
  intros Hclt Hpaga Htipo Hvalor H.
  apply executa_calcular_popup in H.
  destruct H as (m & v & dias & salario & dias_calc & _ & _ & _ & _ & H).
  rewrite Hclt in H. cbn [String.eqb Ascii.eqb Bool.eqb] in H.
  apply calcular_clt_popup in H.
  destruct H as (h_extras & perc_extra & val_h_extras & vt & uteis & desc_vr
                 & desc_va & atraso & falta & _ & _ & _ & _ & _ & _ & _ & _
                 & Hrec & Hdesc & Htot & _).
  exists salario, val_h_extras. repeat split; try assumption.
  rewrite Hdesc. unfold ajuste_pensao. rewrite Hpaga, Htipo, Hvalor.
  cbn [String.eqb Ascii.eqb Bool.eqb converte_except converte].
  casos_listados.
Qed.

Lemma alimony_percent_is_of_base_salary_witness :
  let h := holerite_de (executa sem_resposta (calcular clt_extras_pensao)) in
  executa sem_resposta (calcular clt_extras_pensao) = Popup h /\
  exists salario val_h_extras,
    recebimentos h =
      [("Salário Bruto"%string, salario + val_h_extras);
       ("Salário Base"%string, salario)]
      ++ se_positivo "Horas Extras" val_h_extras /\
    total_recebimento h = salario + val_h_extras /\
    valor_de "Pensão Alimentícia" (descontos h) =
      (if Qltb 0 (salario * 10 / 100) then Some (salario * 10 / 100) else None).
Proof.
  intros h.
  assert (E : executa sem_resposta (calcular clt_extras_pensao) = Popup h)
    by (vm_compute; reflexivity).
  split; [exact E |].
  apply (alimony_percent_is_of_base_salary clt_extras_pensao sem_resposta 10 h);
    first [exact E | reflexivity].
Defined.

(** C1, as the claim states it, fails: with 3000 for the month, 10 overtime
    hours at 50% and alimony of 10 percent, the gross pay is 3187.50 and the
    alimony is 300, which is 10% of the base salary and not the 318.75 that
    10% of the gross pay would be. *)
Lemma alimony_percent_is_not_of_gross_pay :
  exists h bruto extras pensao,
    executa sem_resposta (calcular clt_extras_pensao) = Popup h /\
    valor_de "Salário Bruto" (recebimentos h) = Some bruto /\
    valor_de "Horas Extras" (recebimentos h) = Some extras /\
    valor_de "Pensão Alimentícia" (descontos h) = Some pensao /\
    bruto == 3187.50 /\ extras == 187.50 /\ pensao == 300 /\
    ~ pensao == 10 / 100 * bruto.
Proof.
  do 4 eexists.
  split; [vm_compute; reflexivity |].
  split; [vm_compute; reflexivity |].
  split; [vm_compute; reflexivity |].
  split; [vm_compute; reflexivity |].
  split; [vm_compute; reflexivity |].
  split; [vm_compute; reflexivity |].
  split; [vm_compute; reflexivity |].
  vm_compute. discriminate.
Qed.

(** ** Daily pay from a chosen day *)

(** With a daily value and the scope "from a specific day", the base salary
    is the daily value times the days from the chosen day to the end of the
    month, while the proportional meal voucher is charged on
    [count_uteis ano mes 1]: the call never passes the chosen day. *)
Lemma daily_from_day_salary_and_meal_voucher (self : Calculadora) (u : Usuario)
    (d : Z) (h : Holerite) :
  tipo_contrato self = "CLT"%string ->
  tipo_valor self = "diario"%string ->
  tipo_calculo self = "data"%string ->
  vr_fixo self = false ->
  dia_ini u = Some d ->
  executa u (calcular self) = Popup h ->
  exists m v dias uteis vr,
    converte (mes self) = Ok m /\
    converte (valor self) = Ok v /\
    Calendar.monthrange (int_digits 0 (ano self)) m = Ok dias /\
    count_uteis (int_digits 0 (ano self)) m 1 = Ok uteis /\
    converte_ou (valor_vr self) 0 = Ok vr /\
    valor_de "Salário Base" (recebimentos h) = Some (v * inject_Z (dias - d + 1)) /\
    valor_de "Vale Refeição" (descontos h) =
      (if Qltb 0 (vr * inject_Z uteis * 0.2)
       then Some (vr * inject_Z uteis * 0.2) else None).
Proof.
  intros Hclt Hdiario Hdata Hvr Hd H.
  apply executa_calcular_popup in H.
  destruct H as (m & v & dias & salario & dias_calc & Em & Ev & Ed & Es & H).
  unfold salario_e_dias in Es. rewrite Hdiario, Hdata, Hd in Es.
  cbn [String.eqb Ascii.eqb Bool.eqb] in Es. injection Es as <- <-.
  rewrite Hclt in H. cbn [String.eqb Ascii.eqb Bool.eqb] in H.
  apply calcular_clt_popup in H.
  destruct H as (h_extras & perc_extra & val_h_extras & vt & uteis & desc_vr
                 & desc_va & atraso & falta & _ & _ & _ & _ & _ & Eu & Evr & _
                 & Hrec & Hdesc & _).
  rewrite Hvr in Evr.
  destruct (converte_ou (valor_vr self) 0) as [vr | e] eqn:Er;
    cbn [bind] in Evr; [| discriminate].
  injection Evr as <-.
  exists m, v, dias, uteis, vr.
  repeat (split; [first [assumption | reflexivity] |]). split.
  - rewrite Hrec. reflexivity.
  - rewrite Hdesc. casos_listados.
Qed.

(** C2 on the code, at 100 a day from day 16 of June 2025 with a
    proportional meal voucher of 10 a day: the base salary is
    100 * (30 - 16 + 1) = 1500, and the meal voucher deduction is
    10 * 21 * 0.2 = 42, on the 21 business days of the whole month, not
    10 * 11 * 0.2 = 22 on the 11 business days from day 16 on. *)
Theorem daily_from_day_meal_voucher_counts_whole_month :
  exists h salario desc_vr,
    executa dia_16 (calcular clt_diario_data) = Popup h /\
    valor_de "Salário Base" (recebimentos h) = Some salario /\
    salario == 100 * inject_Z (30 - 16 + 1) /\
    valor_de "Vale Refeição" (descontos h) = Some desc_vr /\
    count_uteis 2025 6 1 = Ok 21%Z /\
    count_uteis 2025 6 16 = Ok 11%Z /\
    desc_vr == 10 * inject_Z 21 * 0.2 /\
    ~ desc_vr == 10 * inject_Z 11 * 0.2.
Proof.
  do 3 eexists.
  split; [vm_compute; reflexivity |].
  split; [vm_compute; reflexivity |].
  split; [vm_compute; reflexivity |].
  split; [vm_compute; reflexivity |].
  split; [vm_compute; reflexivity |].
  split; [vm_compute; reflexivity |].
  split; [vm_compute; reflexivity |].
  vm_compute. discriminate.
Qed.

(** ** Overtime without a percentage *)

(** C4. In a CLT calculation with overtime hours above 0 and an overtime
    percentage of 0, no pay slip is ever shown; whenever the date and the
    base value are well formed and the start-day dialog, if the form asks
    for it, is answered, the run ends with the error 'Informe o percentual
    das horas extras'; and the run ends without an error message only when
    that dialog, which comes first, is cancelled. *)
Theorem overtime_without_percent_is_an_error (self : Calculadora) (u : Usuario)
    (h_extras perc_extra : Q) :
  tipo_contrato self = "CLT"%string ->
  converte_ou (horas self) 0 = Ok h_extras ->
  0 < h_extras ->
  converte_ou (percentual self) 0 = Ok perc_extra ->
  perc_extra == 0 ->
  (forall h, executa u (calcular self) <> Popup h) /\
  (entrada_valida self u = true -> executa u (calcular self) = ErroPercentual) /\
  (executa u (calcular self) = Retorno ->
   tipo_valor self = "diario"%string /\ tipo_calculo self <> "mes"%string /\
   dia_ini u = None).
Proof.
  intros Hclt Eh Hpos Ep Hzero.
  assert (Hcheck : Qltb 0 h_extras && Qeq_bool perc_extra 0 = true).
  { apply andb_true_intro. split; [apply Qltb_true; assumption |].
    apply Qeq_bool_iff. assumption. }
  assert (Hbranch : forall ano mes valor dias salario dias_calc pensao,
             calcular_clt self ano mes valor dias salario dias_calc pensao
             = ErroPercentual).
  { intros. unfold calcular_clt. rewrite Eh, Ep. cbn [tentar_saida].
    rewrite Hcheck. reflexivity. }
  split; [| split].
  - intros h H. apply executa_calcular_popup in H.
    destruct H as (m & v & dias & salario & dias_calc & _ & _ & _ & _ & H).
    rewrite Hclt in H. cbn [String.eqb Ascii.eqb Bool.eqb] in H.
    rewrite Hbranch in H. discriminate.
  - unfold entrada_valida. intros Hok.
    apply andb_prop in Hok. destruct Hok as [Hok Hdia].
    apply andb_prop in Hok. destruct Hok as [Hano Hconv].
    rewrite executa_calcular.
    apply andb_prop in Hano. destruct Hano as [Hlen Hdig].
    rewrite Hlen, Hdig. cbn [negb orb].
    destruct (converte (mes self)) as [m | e]; [| discriminate].
    destruct (converte (valor self)) as [v | e]; [| discriminate].
    destruct (Calendar.monthrange (int_digits 0 (ano self)) m) as [dias | e];
      [| discriminate].
    unfold salario_e_dias.
    destruct (tipo_valor self =? "diario")%string;
      destruct (tipo_calculo self =? "mes")%string;
      cbn [negb andb] in Hdia |- *;
      try (destruct (dia_ini u); [| discriminate]);
      rewrite Hclt; cbn [String.eqb Ascii.eqb Bool.eqb];
      apply Hbranch.
  - rewrite executa_calcular.
    destruct (negb (String.length (ano self) =? 4)%nat || negb (isdigit (ano self)));
      [discriminate |].
    destruct (converte (mes self)) as [m | e]; [| discriminate].
    destruct (converte (valor self)) as [v | e]; [| discriminate].
    destruct (Calendar.monthrange (int_digits 0 (ano self)) m) as [dias | e];
      [| discriminate].
    unfold salario_e_dias.
    destruct (tipo_valor self =? "diario")%string eqn:Etv;
      [destruct (tipo_calculo self =? "mes")%string eqn:Etc;
       [| destruct (dia_ini u)] |];
      cbv zeta; rewrite ?Hclt; cbn [String.eqb Ascii.eqb Bool.eqb];
      rewrite ?Hbranch; try discriminate.
    intros _. apply String.eqb_eq in Etv. apply String.eqb_neq in Etc.
    auto.
Qed.

Lemma overtime_without_percent_is_an_error_witness :
  entrada_valida clt_extras_sem_percentual sem_resposta = true /\
  executa sem_resposta (calcular clt_extras_sem_percentual) = ErroPercentual /\
  (forall h, executa sem_resposta (calcular clt_extras_sem_percentual) <> Popup h).
Proof.
  destruct (overtime_without_percent_is_an_error
              clt_extras_sem_percentual sem_resposta 2 0) as (H1 & H2 & _);
    try (vm_compute; reflexivity).
  split; [vm_compute; reflexivity |].
  split; [apply H2; vm_compute; reflexivity | exact H1].
Defined.

(** ** The MEI activity dialog *)

(** C5. When the activity dialog of the MEI branch is cancelled, the run
    ends in a bare return: whenever the run opens the dialog it ends with
    [Retorno], and a MEI calculation shows no pay slip, whatever the rest
    of the form. *)
Theorem mei_cancelled_shows_nothing (self : Calculadora) (u : Usuario) :
  tipo_ativ u = None ->
  (abre_MEIPopup u (calcular self) = true ->
   executa u (calcular self) = Retorno) /\
  (tipo_contrato self = "MEI"%string ->
   forall h, executa u (calcular self) <> Popup h).
Proof.
  intros Hnone. split.
  - unfold calcular, tentar, ajuste_salario, calcular_mei.
    repeat match goal with
      | |- context [if ?b then _ else _] => destruct b
      | |- context [match ?x with Ok _ => _ | Raise _ => _ end] => destruct x
      | |- context [match dia_ini u with Some _ => _ | None => _ end] =>
          destruct (dia_ini u)
      | _ => progress cbn [abre_MEIPopup executa]
      | _ => rewrite Hnone
      end;
      first [reflexivity | discriminate].
  - intros Hmei h H. apply executa_calcular_popup in H.
    destruct H as (m & v & dias & salario & dias_calc & _ & _ & _ & _ & H).
    rewrite Hmei in H. cbn [String.eqb Ascii.eqb Bool.eqb] in H.
    unfold calcular_mei in H. cbn [executa] in H. rewrite Hnone in H.
    discriminate.
Qed.

Lemma mei_cancelled_shows_nothing_witness :
  abre_MEIPopup sem_resposta
    (calcular (formulario "MEI" "total" "mes" 5000 4 "2025")) = true /\
  executa sem_resposta
    (calcular (formulario "MEI" "total" "mes" 5000 4 "2025")) = Retorno.
Proof.
  split; [vm_compute; reflexivity |].
  apply (mei_cancelled_shows_nothing
           (formulario "MEI" "total" "mes" 5000 4 "2025") sem_resposta);
    vm_compute; reflexivity.
Defined.

(** ** The amounts of a pay slip, from the fields of the form *)

Lemma converte_ou_convertivel (e : entry Q) (d : Q) :
  (convertivel e = true -> converte_ou e d = Ok (valor_ou e d)) /\
  (forall a, converte_ou e d = Ok a -> convertivel e = true /\ a = valor_ou e d).
Proof.
  destruct e as [| | b]; cbn; split; try discriminate; auto;
    intros a H; injection H as <-; auto.
Qed.

Lemma val_hora_eq (d : Q) : val_hora d == d / 8.
Proof.
  unfold val_hora. destruct (Qeq_bool d 0) eqn:E; [| reflexivity].
  apply Qeq_bool_iff in E. rewrite E. reflexivity.
Qed.

(** The base salary and the days it pays, from the kind of value, the
    scope and the answer to the start-day dialog. *)
Lemma salario_e_dias_campos (self : Calculadora) (u : Usuario) (v : Q)
    (dias : Z) (salario : Q) (dias_calc : Z) :
  salario_e_dias self u v dias = Some (salario, dias_calc) ->
  dias_calc =
    (if (tipo_valor self =? "diario")%string
        && negb (tipo_calculo self =? "mes")%string
     then match dia_ini u with Some d => (dias - d + 1)%Z | None => dias end
     else dias) /\
  salario =
    (if (tipo_valor self =? "diario")%string then v * inject_Z dias_calc else v).
Proof.
  unfold salario_e_dias.
  destruct (tipo_valor self =? "diario")%string;
    [destruct (tipo_calculo self =? "mes")%string |]; cbn [andb negb].
  - intros H. injection H as <- <-. split; reflexivity.
  - destruct (dia_ini u) as [d |]; [| discriminate].
    intros H. injection H as <- <-. split; reflexivity.
  - intros H. injection H as <- <-. split; reflexivity.
Qed.

(** A run that shows a pay slip, on a form whose base value, month and
    days of the month are known. *)
Lemma executa_popup_campos (self : Calculadora) (u : Usuario) (h : Holerite)
    (v : Q) (m dias : Z) :
  valor self = Texto v ->
  mes self = Texto m ->
  Calendar.monthrange (int_digits 0 (ano self)) m = Ok dias ->
  executa u (calcular self) = Popup h ->
  exists salario dias_calc,
    salario_e_dias self u v dias = Some (salario, dias_calc) /\
    (if (tipo_contrato self =? "CLT")%string then
       calcular_clt self (int_digits 0 (ano self)) m v dias salario dias_calc
         (ajuste_pensao self salario)
     else if (tipo_contrato self =? "PJ")%string then
       calcular_pj salario (ajuste_pensao self salario)
     else if (tipo_contrato self =? "MEI")%string then
       executa u (calcular_mei salario (ajuste_pensao self salario))
     else ErroExcecao UnboundLocalError) = Popup h.
Proof.
  intros Hv Hm Hd H. apply executa_calcular_popup in H.
  destruct H as (m' & v' & dias' & salario & dias_calc & Em & Ev & Ed & Es & H).
  rewrite Hm in Em. rewrite Hv in Ev. cbn [converte] in Em, Ev.
  injection Em as <-. injection Ev as <-.
  rewrite Hd in Ed. injection Ed as <-.
  exists salario, dias_calc. split; assumption.
Qed.

(** The alimony, from the three fields of the form. *)
Lemma ajuste_pensao_campos (self : Calculadora) (salario : Q) :
  let pensao :=
    if paga_pensao self then
      match valor_pensao self with
      | Texto a =>
          if (tipo_pensao self =? "percent")%string then salario * a / 100 else a
      | Vazio | Invalido => 0
      end
    else 0 in
  ajuste_pensao self salario == pensao /\
  forall nome,
    se_positivo nome (ajuste_pensao self salario) = se_positivo nome pensao.
Proof.
  assert (Z0 : forall nome, se_positivo nome (salario * 0 / 100) = se_positivo nome 0).
  { intros nome. unfold se_positivo.
    replace (Qltb 0 (salario * 0 / 100)) with false; [reflexivity |].
    symmetry. apply Qltb_false.
    assert (E : salario * 0 / 100 == 0) by field.
    rewrite E. apply Qle_refl. }
  unfold ajuste_pensao, converte_except. cbv zeta.
  destruct (paga_pensao self); [| split; reflexivity].
  destruct (valor_pensao self) as [| | a]; cbn [converte];
    destruct (tipo_pensao self =? "percent")%string;
    split; first [reflexivity | exact Z0 | field].
Qed.

(** ** The transport voucher *)

(** C6. In a CLT calculation with the transport voucher as a percentage,
    the deduction listed under [Vale Transporte] is the gross pay times
    [min(percent, 6)] / 100, where the percent is the one typed, or 6 when
    the field is empty; the percent applied is never above 6.  The gross
    pay is the base salary plus the overtime value, both from the fields of
    the form: the base value [v] (times the days paid, for a daily value),
    the overtime hours and their percentage. *)
Theorem transport_voucher_percent_capped_at_six (self : Calculadora)
    (u : Usuario) (h : Holerite) (v : Q) (m dias : Z) :
  tipo_contrato self = "CLT"%string ->
  vt_fixo self = false ->
  valor self = Texto v ->
  mes self = Texto m ->
  Calendar.monthrange (int_digits 0 (ano self)) m = Ok dias ->
  executa u (calcular self) = Popup h ->
  let diario := (tipo_valor self =? "diario")%string in
  let dias_calc :=
    if diario && negb (tipo_calculo self =? "mes")%string
    then match dia_ini u with Some d => (dias - d + 1)%Z | None => dias end
    else dias in
  let salario := if diario then v * inject_Z dias_calc else v in
  let h_extras := match horas self with Texto a => a | _ => 0 end in
  let perc_extra := match percentual self with Texto a => a | _ => 0 end in
  let diaria := if diario then v else salario / inject_Z dias_calc in
  let val_h_extras :=
    if Qltb 0 h_extras then diaria / 8 * h_extras * (1 + perc_extra / 100)
    else 0 in
  let salario_bruto := salario + val_h_extras in
  exists vt,
    valor_de "Salário Bruto" (recebimentos h) = Some (total_recebimento h) /\
    total_recebimento h == salario_bruto /\
    valor_de "Vale Transporte" (descontos h) = Some vt /\
    match vt_percentual self with
    | Texto percent =>
        vt == salario_bruto * Qmin percent 6 / 100 /\ Qmin percent 6 <= 6
    | Vazio => vt == salario_bruto * 6 / 100
    | Invalido => False
    end.
Proof.
  intros Hclt Hvt Hv Hm Hd H diario dias_calc salario h_extras perc_extra
    diaria val_h_extras salario_bruto.
  destruct (executa_popup_campos self u h v m dias Hv Hm Hd H)
    as (salario' & dias_calc' & Es & H').
  apply salario_e_dias_campos in Es. destruct Es as [Edc Esal].
  change (dias_calc' = dias_calc) in Edc. subst dias_calc'.
  change (salario' = salario) in Esal. subst salario'.
  rewrite Hclt in H'. cbn [String.eqb Ascii.eqb Bool.eqb] in H'.
  apply calcular_clt_popup in H'.
  destruct H' as (hx & px & vhx & vt & uteis & desc_vr & desc_va & atraso
                  & falta & Eh & Ep & _ & Evhx & Evt & _ & _ & _
                  & Hrec & Hdesc & Htot & _).
  apply converte_ou_convertivel in Eh, Ep.
  destruct Eh as [_ Eh], Ep as [_ Ep].
  change (hx = h_extras) in Eh. change (px = perc_extra) in Ep. subst hx px.
  assert (Ex : vhx == val_h_extras).
  { rewrite Evhx. unfold val_h_extras.
    destruct (Qltb 0 h_extras); [| reflexivity].
    unfold calc_h_extra. rewrite val_hora_eq. reflexivity. }
  assert (Eb : salario + vhx == salario_bruto).
  { unfold salario_bruto. rewrite Ex. reflexivity. }
  rewrite Hvt in Evt.
  exists vt.
  split; [rewrite Hrec, Htot; reflexivity |].
  split; [rewrite Htot; exact Eb |].
  split; [rewrite Hdesc; casos_listados |].
  destruct (vt_percentual self) as [| | percent]; cbn [converte_ou bind] in Evt.
  - injection Evt as Evt. rewrite <- Evt.
    change (Qltb 6 6) with false. cbv iota. rewrite Eb. reflexivity.
  - discriminate Evt.
  - injection Evt as Evt. rewrite <- Evt. rewrite Eb.
    split; [| apply Q.le_min_r].
    destruct (Qltb 6 percent) eqn:E.
    + apply Qltb_true in E. rewrite Q.min_r by (apply Qlt_le_weak; exact E).
      reflexivity.
    + apply Qltb_false in E. rewrite Q.min_l by exact E. reflexivity.
Qed.

Lemma transport_voucher_percent_capped_at_six_witness :
  let h := holerite_de (executa sem_resposta (calcular clt_extras_vt_dez)) in
  vt_percentual clt_extras_vt_dez = Texto 10 /\
  executa sem_resposta (calcular clt_extras_vt_dez) = Popup h /\
  exists vt,
    valor_de "Vale Transporte" (descontos h) = Some vt /\
    total_recebimento h == 3187.50 /\
    vt == 3187.50 * 6 / 100 /\
    vt == 191.25.
Proof.
  intros h.
  assert (E : executa sem_resposta (calcular clt_extras_vt_dez) = Popup h)
    by (vm_compute; reflexivity).
  split; [reflexivity |]. split; [exact E |].
  destruct (transport_voucher_percent_capped_at_six
              clt_extras_vt_dez sem_resposta h 3000 6 30)
    as (vt & _ & Hb & Hvt & Hp & _);
    [reflexivity | reflexivity | reflexivity | reflexivity | reflexivity
     | exact E |].
  exists vt. split; [exact Hvt |].
  split; [rewrite Hb; vm_compute; reflexivity |].
  split; rewrite Hp; vm_compute; reflexivity.
Defined.

(** ** PJ *)

(** C7. In a PJ calculation the four taxes are 15%, 9%, 6.5% and 3.5% of
    the salary and the net amount is the salary minus the four taxes minus
    the alimony.  The salary is the base value typed (times the days paid,
    for a daily value) and the alimony the one elected on the form: the
    percentage typed of the salary, or the amount typed, or 0 when none is
    paid or the text is no number.  With 10000 a day for a whole month of
    30 days and no alimony, a pay slip is shown on which the salary is
    300000, the deductions total 102000 and the net amount is 198000. *)
Theorem pj_taxes_and_net (self : Calculadora) (u : Usuario) :
  tipo_contrato self = "PJ"%string ->
  (forall (h : Holerite) (v : Q) (m dias : Z),
   valor self = Texto v ->
   mes self = Texto m ->
   Calendar.monthrange (int_digits 0 (ano self)) m = Ok dias ->
   executa u (calcular self) = Popup h ->
   let diario := (tipo_valor self =? "diario")%string in
   let dias_calc :=
     if diario && negb (tipo_calculo self =? "mes")%string
     then match dia_ini u with Some d => (dias - d + 1)%Z | None => dias end
     else dias in
   let salario := if diario then v * inject_Z dias_calc else v in
   let pensao :=
     if paga_pensao self then
       match valor_pensao self with
       | Texto a =>
           if (tipo_pensao self =? "percent")%string then salario * a / 100
           else a
       | Vazio | Invalido => 0
       end
     else 0 in
   recebimentos h = [("Faturamento"%string, salario)] /\
   total_recebimento h = salario /\
   descontos h =
     [("IRPJ (15%)"%string, salario * 0.15);
      ("CSLL (9%)"%string, salario * 0.09);
      ("PIS/COFINS (6,5%)"%string, salario * 0.065);
      ("ISS (3,5%)"%string, salario * 0.035)]
     ++ se_positivo "Pensão Alimentícia" pensao /\
   total_desconto h ==
     salario * 0.15 + salario * 0.09 + salario * 0.065 + salario * 0.035
     + pensao /\
   liquido h ==
     salario
     - (salario * 0.15 + salario * 0.09 + salario * 0.065 + salario * 0.035)
     - pensao) /\
  (tipo_valor self = "diario"%string ->
   tipo_calculo self = "mes"%string ->
   valor self = Texto 10000 ->
   paga_pensao self = false ->
   String.length (ano self) = 4%nat ->
   isdigit (ano self) = true ->
   (exists m, mes self = Texto m /\
              Calendar.monthrange (int_digits 0 (ano self)) m = Ok 30%Z) ->
   exists h salario,
     executa u (calcular self) = Popup h /\
     recebimentos h = [("Faturamento"%string, salario)] /\
     salario == 300000 /\
     total_desconto h == 102000 /\
     liquido h == 198000).
Proof.
  intros Hpj. split.
  - intros h v m dias Hv Hm Hd H diario dias_calc salario pensao.
    destruct (executa_popup_campos self u h v m dias Hv Hm Hd H)
      as (salario' & dias_calc' & Es & H').
    apply salario_e_dias_campos in Es. destruct Es as [Edc Esal].
    change (dias_calc' = dias_calc) in Edc. subst dias_calc'.
    change (salario' = salario) in Esal. subst salario'.
    rewrite Hpj in H'. cbn [String.eqb Ascii.eqb Bool.eqb] in H'.
    unfold calcular_pj in H'. injection H' as <-.
    cbn [recebimentos descontos total_desconto total_recebimento liquido].
    destruct (ajuste_pensao_campos self salario) as [Ep Lp].
    change (ajuste_pensao self salario == pensao) in Ep.
    change (forall nome, se_positivo nome (ajuste_pensao self salario)
                         = se_positivo nome pensao) in Lp.
    split; [reflexivity |]. split; [reflexivity |].
    split; [rewrite Lp; reflexivity |].
    split; rewrite Ep; [reflexivity | field].
  - intros Hdiario Hmes Hvalor Hpensao Hlen Hdig (m & Em & Ed).
    rewrite executa_calcular.
    rewrite Hlen, Hdig, Em, Hvalor. cbn [Nat.eqb negb orb converte].
    rewrite Ed. unfold salario_e_dias. rewrite Hdiario, Hmes, Hpj.
    cbn [String.eqb Ascii.eqb Bool.eqb]. cbv zeta.
    unfold ajuste_pensao. rewrite Hpensao. unfold calcular_pj.
    do 2 eexists. split; [reflexivity |].
    cbn [recebimentos descontos total_desconto total_recebimento liquido].
    split; [reflexivity |].
    repeat split; vm_compute; reflexivity.
Qed.

Lemma pj_taxes_and_net_witness :
  (let h := holerite_de (executa sem_resposta (calcular pj_diario_pensao)) in
   executa sem_resposta (calcular pj_diario_pensao) = Popup h /\
   exists salario pensao,
     recebimentos h = [("Faturamento"%string, salario)] /\
     salario == 300000 /\
     valor_de "Pensão Alimentícia" (descontos h) = Some pensao /\
     pensao == 60000 /\
     total_desconto h == 162000 /\
     liquido h == 138000) /\
  (let self := formulario "PJ" "diario" "mes" 10000 4 "2025" in
   exists h salario,
     executa sem_resposta (calcular self) = Popup h /\
     recebimentos h = [("Faturamento"%string, salario)] /\
     salario == 300000 /\
     total_desconto h == 102000 /\
     liquido h == 198000).
Proof.
  split.
  - intros h.
    assert (E : executa sem_resposta (calcular pj_diario_pensao) = Popup h)
      by (vm_compute; reflexivity).
    split; [exact E |].
    destruct (pj_taxes_and_net pj_diario_pensao sem_resposta) as [H _];
      [reflexivity |].
    destruct (H h 10000 4%Z 30%Z) as (Hrec & _ & Hdesc & Htot & Hliq);
      [reflexivity | reflexivity | reflexivity | exact E |].
    exists (10000 * inject_Z 30), (10000 * inject_Z 30 * 20 / 100).
    split; [exact Hrec |].
    split; [vm_compute; reflexivity |].
    split; [rewrite Hdesc; vm_compute; reflexivity |].
    split; [vm_compute; reflexivity |].
    split; [rewrite Htot | rewrite Hliq]; vm_compute; reflexivity.
  - intros self.
    destruct (pj_taxes_and_net self sem_resposta) as [_ H]; [reflexivity |].
    apply H; try reflexivity.
    exists 4%Z. split; reflexivity.
Defined.

(** ** MEI *)

(** C8. In a MEI calculation whose activity dialog is answered (1 commerce
    or industry, 2 services, 3 both), the payment listed under
    [DAS (mensal)] is 75.90, plus 1.00 when the activity includes commerce
    or industry, plus 5.00 when it includes services, and the net amount is
    the salary minus that payment minus the alimony.  The salary is the
    base value typed (times the days paid, for a daily value) and the
    alimony the one elected on the form: the percentage typed of the
    salary, or the amount typed, or 0 when none is paid or the text is no
    number.  With the activity "both", 5000 for the month and no alimony, a
    pay slip is shown on which the payment is 81.90 and the net amount is
    4918.10. *)
Theorem mei_payment_and_net (self : Calculadora) (u : Usuario) (t : Z) :
  tipo_contrato self = "MEI"%string ->
  tipo_ativ u = Some t ->
  (1 <= t <= 3)%Z ->
  (forall (h : Holerite) (v : Q) (m dias : Z),
   valor self = Texto v ->
   mes self = Texto m ->
   Calendar.monthrange (int_digits 0 (ano self)) m = Ok dias ->
   executa u (calcular self) = Popup h ->
   let diario := (tipo_valor self =? "diario")%string in
   let dias_calc :=
     if diario && negb (tipo_calculo self =? "mes")%string
     then match dia_ini u with Some d => (dias - d + 1)%Z | None => dias end
     else dias in
   let salario := if diario then v * inject_Z dias_calc else v in
   let pensao :=
     if paga_pensao self then
       match valor_pensao self with
       | Texto a =>
           if (tipo_pensao self =? "percent")%string then salario * a / 100
           else a
       | Vazio | Invalido => 0
       end
     else 0 in
   exists das,
     recebimentos h = [("Faturamento"%string, salario)] /\
     total_recebimento h = salario /\
     descontos h =
       [("DAS (mensal)"%string, das)] ++ se_positivo "Pensão Alimentícia" pensao /\
     das == 75.90 + (if (t =? 1)%Z || (t =? 3)%Z then 1.00 else 0)
                  + (if (t =? 2)%Z || (t =? 3)%Z then 5.00 else 0) /\
     total_desconto h == das + pensao /\
     liquido h == salario - das - pensao) /\
  (t = 3%Z ->
   tipo_valor self = "total"%string ->
   valor self = Texto 5000 ->
   paga_pensao self = false ->
   String.length (ano self) = 4%nat ->
   isdigit (ano self) = true ->
   (exists m dias, mes self = Texto m /\
                   Calendar.monthrange (int_digits 0 (ano self)) m = Ok dias) ->
   exists h das,
     executa u (calcular self) = Popup h /\
     valor_de "Faturamento" (recebimentos h) = Some 5000 /\
     valor_de "DAS (mensal)" (descontos h) = Some das /\
     das == 81.90 /\
     total_desconto h == 81.90 /\
     liquido h == 4918.10).
Proof.
  intros Hmei Ht Hrange. split.
  - intros h v m dias Hv Hm Hd H diario dias_calc salario pensao.
    destruct (executa_popup_campos self u h v m dias Hv Hm Hd H)
      as (salario' & dias_calc' & Es & H').
    apply salario_e_dias_campos in Es. destruct Es as [Edc Esal].
    change (dias_calc' = dias_calc) in Edc. subst dias_calc'.
    change (salario' = salario) in Esal. subst salario'.
    rewrite Hmei in H'. cbn [String.eqb Ascii.eqb Bool.eqb] in H'.
    unfold calcular_mei in H'. cbn [executa] in H'. rewrite Ht in H'.
    injection H' as <-.
    cbn [recebimentos descontos total_desconto total_recebimento liquido].
    destruct (ajuste_pensao_campos self salario) as [Ep Lp].
    change (ajuste_pensao self salario == pensao) in Ep.
    change (forall nome, se_positivo nome (ajuste_pensao self salario)
                         = se_positivo nome pensao) in Lp.
    eexists.
    split; [reflexivity |]. split; [reflexivity |].
    split; [rewrite Lp; reflexivity |].
    split; [| split; rewrite Ep; [reflexivity | field]].
    assert (Hcases : t = 1%Z \/ t = 2%Z \/ t = 3%Z) by lia.
    destruct Hcases as [-> | [-> | ->]]; vm_compute; reflexivity.
  - intros -> Htotal Hvalor Hpensao Hlen Hdig (m & dias & Em & Ed).
    rewrite executa_calcular.
    rewrite Hlen, Hdig, Em, Hvalor. cbn [Nat.eqb negb orb converte].
    rewrite Ed. unfold salario_e_dias. rewrite Htotal, Hmei.
    cbn [String.eqb Ascii.eqb Bool.eqb]. cbv zeta.
    unfold ajuste_pensao. rewrite Hpensao. unfold calcular_mei.
    cbn [executa]. rewrite Ht.
    do 2 eexists. split; [reflexivity |].
    cbn [recebimentos descontos total_desconto total_recebimento liquido].
    split; [reflexivity |]. split; [reflexivity |].
    repeat split; vm_compute; reflexivity.
Qed.

Lemma mei_payment_and_net_witness :
  (let self := mei_diario_data_pensao in
   let h := holerite_de (executa dia_16_ambos (calcular self)) in
   executa dia_16_ambos (calcular self) = Popup h /\
   exists salario das pensao,
     recebimentos h = [("Faturamento"%string, salario)] /\
     salario == 1600 /\
     valor_de "DAS (mensal)" (descontos h) = Some das /\
     das == 81.90 /\
     valor_de "Pensão Alimentícia" (descontos h) = Some pensao /\
     pensao == 160 /\
     total_desconto h == 241.90 /\
     liquido h == 1358.10) /\
  (let self := formulario "MEI" "total" "mes" 5000 4 "2025" in
   exists h das,
     executa ambos (calcular self) = Popup h /\
     valor_de "Faturamento" (recebimentos h) = Some 5000 /\
     valor_de "DAS (mensal)" (descontos h) = Some das /\
     das == 81.90 /\
     total_desconto h == 81.90 /\
     liquido h == 4918.10).
Proof.
  split.
  - intros self h.
    assert (E : executa dia_16_ambos (calcular self) = Popup h)
      by (vm_compute; reflexivity).
    split; [exact E |].
    destruct (mei_payment_and_net self dia_16_ambos 3) as [H _];
      [reflexivity | reflexivity | lia |].
    destruct (H h 100 7%Z 31%Z)
      as (das & Hrec & _ & Hdesc & Hdas & Htot & Hliq);
      [reflexivity | reflexivity | reflexivity | exact E |].
    exists (100 * inject_Z (31 - 16 + 1)), das,
      (100 * inject_Z (31 - 16 + 1) * 10 / 100).
    split; [exact Hrec |].
    split; [vm_compute; reflexivity |].
    split; [rewrite Hdesc; reflexivity |].
    split; [rewrite Hdas; vm_compute; reflexivity |].
    split; [rewrite Hdesc; vm_compute; reflexivity |].
    split; [vm_compute; reflexivity |].
    split; [rewrite Htot, Hdas | rewrite Hliq, Hdas]; vm_compute; reflexivity.
  - intros self.
    destruct (mei_payment_and_net self ambos 3) as [_ H];
      [reflexivity | reflexivity | lia |].
    apply H; try reflexivity.
    exists 4%Z, 30%Z. split; reflexivity.
Defined.

(** ** Amounts that do not convert *)

Lemma converte_except_zero_se_invalido (e : entry Q) :
  converte_except (zero_se_invalido e) = converte_except e.
Proof. destruct e; reflexivity. Qed.

Lemma ajuste_pensao_digita_zero (self : Calculadora) (salario : Q) :
  ajuste_pensao (digita_zero self) salario = ajuste_pensao self salario.
Proof.
  unfold ajuste_pensao.
  cbn [digita_zero paga_pensao tipo_pensao valor_pensao].
  rewrite converte_except_zero_se_invalido. reflexivity.
Qed.

Lemma calcular_clt_digita_zero (self : Calculadora) (ano mes : Z) (valor : Q)
    (dias : Z) (salario : Q) (dias_calc : Z) (pensao : Q) :
  calcular_clt (digita_zero self) ano mes valor dias salario dias_calc pensao
  = calcular_clt self ano mes valor dias salario dias_calc pensao.
Proof.
  unfold calcular_clt.
  cbn [digita_zero horas percentual tipo_valor atraso_horas atraso_minutos
       faltas vt_fixo valor_vt_fixo vt_percentual vr_fixo valor_vr_fixo
       valor_vr va_fixo valor_va_fixo valor_va].
  rewrite !converte_except_zero_se_invalido. reflexivity.
Qed.

(** C10. A fixed amount of a voucher, or the amount of the alimony, whose
    text does not convert to a number counts as 0: the run ends exactly as
    if "0" had been typed in that field, so no error is reported for it and
    the pay slip is still shown.  With the three vouchers fixed and a fixed
    alimony, none of the four amounts a number, the pay slip lists the
    transport voucher with 0 and no meal voucher, food voucher or
    alimony. *)
Theorem unparseable_amounts_count_as_zero (self : Calculadora) (u : Usuario) :
  executa u (calcular self) = executa u (calcular (digita_zero self)) /\
  exists h inss irrf,
    executa sem_resposta (calcular clt_fixos_invalidos) = Popup h /\
    descontos h =
      [("INSS"%string, inss); ("IRRF"%string, irrf);
       ("Vale Transporte"%string, 0)] /\
    total_desconto h == inss + irrf.
Proof.
  split.
  - rewrite !executa_calcular.
    cbn [digita_zero ano mes valor tipo_contrato].
    destruct (negb (String.length (ano self) =? 4)%nat || negb (isdigit (ano self)));
      [reflexivity |].
    destruct (converte (mes self)) as [m | e]; [| reflexivity].
    destruct (converte (valor self)) as [v | e]; [| reflexivity].
    destruct (Calendar.monthrange (int_digits 0 (ano self)) m) as [dias | e];
      [| reflexivity].
    change (salario_e_dias (digita_zero self) u v dias)
      with (salario_e_dias self u v dias).
    destruct (salario_e_dias self u v dias) as [[salario dias_calc] |];
      [| reflexivity].
    cbv zeta.
    rewrite ajuste_pensao_digita_zero, calcular_clt_digita_zero. reflexivity.
  - do 3 eexists. split; [vm_compute; reflexivity |].
    split; [reflexivity |]. vm_compute. reflexivity.
Qed.

(** * Further properties *)

(** ** [count_uteis] *)

Lemma weekday_next (y m d : Z) :
  Calendar.weekday y m (d + 1) = ((Calendar.weekday y m d + 1) mod 7)%Z.
Proof.
  unfold Calendar.weekday, Calendar.ymd2ord.
  rewrite Z.add_mod_idemp_l by lia. f_equal. lia.
Qed.

Lemma weekday_range (y m d : Z) : (0 <= Calendar.weekday y m d < 7)%Z.
Proof. unfold Calendar.weekday. apply Z.mod_pos_bound. lia. Qed.

(** Outside December 9999 the loop never steps past [date.max]: it adds to
    its counter the business days among the [n] days from [current], which
    only depend on the weekday of [current]. *)
Lemma count_loop_ok (y m : Z) (n : nat) (current count : Z) :
  ~ (y = 9999 /\ m = 12)%Z ->
  count_loop y m current n count
  = Ok (count + dias_uteis_desde (Calendar.weekday y m current) n)%Z.
Proof.
  intros Hd. revert current count.
  induction n as [| n IH]; intros current count.
  - cbn. f_equal. lia.
  - cbn [count_loop dias_uteis_desde]. cbv zeta. unfold dia_seguinte.
    assert (E : ((y =? 9999) && (m =? 12))%Z = false).
    { apply andb_false_iff.
      destruct (Z.eqb_spec y 9999) as [Hy | Hy]; [| auto].
      destruct (Z.eqb_spec m 12) as [Hm | Hm]; [| auto].
      exfalso. apply Hd. auto. }
    rewrite E. cbn [andb bind]. rewrite IH, weekday_next. f_equal.
    destruct (Calendar.weekday y m current <? 5)%Z; lia.
Qed.

(** In December 9999 a loop that gets to day 31 raises [OverflowError]. *)
Lemma count_loop_overflow (n : nat) (current count : Z) :
  (current <= 31)%Z -> (31 < current + Z.of_nat n)%Z ->
  count_loop 9999 12 current n count = Raise OverflowError.
Proof.
  revert current count. induction n as [| n IH]; intros current count H1 H2.
  - lia.
  - cbn [count_loop]. cbv zeta. unfold dia_seguinte.
    cbn [Z.eqb Pos.eqb andb].
    destruct (Z.eqb_spec current 31) as [E | E]; [reflexivity |].
    cbn [bind]. apply IH; lia.
Qed.

(** The business days of [n + k] days are those of the first [n] and those
    of the [k] after them. *)
Lemma dias_uteis_desde_split (y m : Z) (n k : nat) (current : Z) :
  dias_uteis_desde (Calendar.weekday y m current) (n + k) =
    (dias_uteis_desde (Calendar.weekday y m current) n
     + dias_uteis_desde (Calendar.weekday y m (current + Z.of_nat n)) k)%Z.
Proof.
  revert current. induction n as [| n IH]; intros current.
  - cbn [Nat.add dias_uteis_desde Z.of_nat]. rewrite Z.add_0_r. reflexivity.
  - cbn [Nat.add dias_uteis_desde]. rewrite <- weekday_next, IH.
    replace (current + 1 + Z.of_nat n)%Z with (current + Z.of_nat (S n))%Z by lia.
    lia.
Qed.

Lemma dias_uteis_desde_bounds (n : nat) (w : Z) :
  (0 <= dias_uteis_desde w n <= Z.of_nat n)%Z.
Proof.
  revert w. induction n as [| n IH]; intros w; [cbn; lia |].
  cbn [dias_uteis_desde]. specialize (IH ((w + 1) mod 7)%Z).
  destruct (w <? 5)%Z; lia.
Qed.

(** Every weekday in 0..6, one after the other. *)
Ltac cada_dia_da_semana w H :=
  assert (w = 0 \/ w = 1 \/ w = 2 \/ w = 3 \/ w = 4 \/ w = 5 \/ w = 6)%Z
    as [-> | [-> | [-> | [-> | [-> | [-> | ->]]]]]] by lia.

Lemma dias_uteis_desde_week (w : Z) :
  (0 <= w < 7)%Z -> dias_uteis_desde w 7 = 5%Z.
Proof. intros H. cada_dia_da_semana w H; reflexivity. Qed.

Lemma dias_uteis_desde_month (w : Z) (n : nat) :
  (0 <= w < 7)%Z -> (28 <= n <= 31)%nat ->
  (20 <= dias_uteis_desde w n <= 23)%Z.
Proof.
  intros H Hn.
  assert (n = 28 \/ n = 29 \/ n = 30 \/ n = 31)%nat
    as [-> | [-> | [-> | ->]]] by lia;
    cada_dia_da_semana w H; vm_compute; split; discriminate.
Qed.

Lemma monthrange_ok (y m dias : Z) :
  Calendar.monthrange y m = Ok dias -> (1 <= m <= 12)%Z /\ (28 <= dias <= 31)%Z.
Proof.
  unfold Calendar.monthrange.
  destruct ((1 <=? m)%Z && (m <=? 12)%Z) eqn:E; [| discriminate].
  apply andb_prop in E. destruct E as [E1 E2].
  apply Z.leb_le in E1, E2. intros H. injection H as <-.
  split; [lia |].
  assert (m = 1 \/ m = 2 \/ m = 3 \/ m = 4 \/ m = 5 \/ m = 6 \/ m = 7 \/
          m = 8 \/ m = 9 \/ m = 10 \/ m = 11 \/ m = 12)%Z
    as [-> | [-> | [-> | [-> | [-> | [-> | [-> | [-> | [-> | [-> | [-> | ->]]]]]]]]]]]
    by lia;
    destruct (Calendar.isleap y); vm_compute; split; discriminate.
Qed.

(** The checks of [date] in terms of [monthrange]. *)
Lemma date_ok_iff (y m d : Z) :
  Calendar.date_ok y m d = true <->
  (1 <= y <= 9999)%Z /\
  exists dias, Calendar.monthrange y m = Ok dias /\ (1 <= d <= dias)%Z.
Proof.
  unfold Calendar.date_ok, Calendar.monthrange.
  rewrite !andb_true_iff, !Z.leb_le. split.
  - intros (((((H1 & H2) & H3) & H4) & H5) & H6).
    split; [lia |].
    apply Z.leb_le in H3, H4. rewrite H3, H4. cbn [andb].
    eexists. split; [reflexivity | lia].
  - intros (Hy & dias & Hd & Hs).
    destruct ((1 <=? m)%Z && (m <=? 12)%Z) eqn:Em; [| discriminate].
    apply andb_prop in Em. destruct Em as [Em1 Em2].
    apply Z.leb_le in Em1, Em2.
    set (x := (nth (Z.to_nat m) Calendar.mdays 0 + _)%Z) in *.
    assert (x = dias) by congruence. lia.
Qed.

(** What [count_uteis] returns: a count on every date outside December
    9999, the business days from [start] to the last day of the month. *)
Lemma count_uteis_ok (y m start n : Z) :
  count_uteis y m start = Ok n <->
  (1 <= y <= 9999)%Z /\ ~ (y = 9999 /\ m = 12)%Z /\
  exists dias, Calendar.monthrange y m = Ok dias /\ (1 <= start <= dias)%Z /\
               n = dias_uteis_desde (Calendar.weekday y m start)
                     (Z.to_nat (dias - start + 1)).
Proof.
  unfold count_uteis.
  destruct (Calendar.date_ok y m start) eqn:E.
  - apply date_ok_iff in E. destruct E as (Hy & dias & Hd & Hs).
    rewrite Hd. cbn [bind].
    destruct (Z.eq_dec y 9999) as [Ey | Ey];
      [destruct (Z.eq_dec m 12) as [Em | Em] |].
    + subst y m. injection Hd as <-.
      rewrite count_loop_overflow by lia.
      split; [discriminate | intros (_ & H & _); exfalso; apply H; auto].
    + rewrite count_loop_ok by (intros [_ H]; contradiction).
      split.
      * intros H. injection H as <-. split; [exact Hy |].
        split; [intros [_ H]; contradiction |].
        exists dias. repeat split; try assumption; lia.
      * intros (_ & _ & dias' & Hd' & _ & ->).
        injection Hd' as <-. reflexivity.
    + rewrite count_loop_ok by (intros [H _]; contradiction).
      split.
      * intros H. injection H as <-. split; [exact Hy |].
        split; [intros [H _]; contradiction |].
        exists dias. repeat split; try assumption; lia.
      * intros (_ & _ & dias' & Hd' & _ & ->).
        injection Hd' as <-. reflexivity.
  - split; [discriminate |].
    intros (Hy & _ & dias & Hd & Hs & _).
    assert (E' : Calendar.date_ok y m start = true)
      by (apply date_ok_iff; eauto).
    congruence.
Qed.



(** The count is between 0 and the days left, and between 20 and 23 for a
    whole month. *)
Lemma count_uteis_range (y m start n : Z) :
  count_uteis y m start = Ok n ->
  exists dias,
    Calendar.monthrange y m = Ok dias /\
    (0 <= n <= dias - start + 1)%Z /\
    (start = 1%Z -> (20 <= n <= 23)%Z).
Proof.
  intros H. apply count_uteis_ok in H.
  destruct H as (Hy & _ & dias & Hd & Hs & ->).
  exists dias. split; [exact Hd |]. split.
  - pose proof (dias_uteis_desde_bounds (Z.to_nat (dias - start + 1))
                  (Calendar.weekday y m start)). lia.
  - intros ->.
    apply dias_uteis_desde_month; [apply weekday_range |].
    apply monthrange_ok in Hd. lia.
Qed.

(** X2. The business days counted from [start] are at most the days from
    [start] to the end of the month and never negative, and a whole month
    has between 20 and 23 of them. *)
Theorem count_uteis_bounds (y m start n : Z) :
  count_uteis y m start = Ok n ->
  exists dias,
    Calendar.monthrange y m = Ok dias /\
    (0 <= n <= dias - start + 1)%Z /\
    (start = 1%Z -> (20 <= n <= 23)%Z).
Proof. apply count_uteis_range. Qed.

Lemma count_uteis_bounds_witness :
  count_uteis 2024 2 1 = Ok 21%Z /\
  exists dias,
    Calendar.monthrange 2024 2 = Ok dias /\
    (0 <= 21 <= dias - 1 + 1)%Z /\
    (1%Z = 1%Z -> (20 <= 21 <= 23)%Z).
Proof.
  split; [reflexivity |].
  apply (count_uteis_bounds 2024 2 1 21). reflexivity.
Defined.

(** X3. Starting one week later counts exactly five business days fewer,
    and starting later never counts more: between two days of the month
    the count drops by at most the number of days skipped. *)
Theorem count_uteis_later_start (y m start start' n n' : Z) :
  count_uteis y m start = Ok n ->
  count_uteis y m start' = Ok n' ->
  (start <= start')%Z ->
  (n' <= n <= n' + (start' - start))%Z /\
  (start' = start + 7 -> n = n' + 5)%Z.
Proof.
  intros H H' Hle.
  apply count_uteis_ok in H, H'.
  destruct H as (Hy & _ & dias & Hd & Hs & ->).
  destruct H' as (_ & _ & dias' & Hd' & Hs' & ->).
  rewrite Hd in Hd'. injection Hd' as <-.
  replace (Z.to_nat (dias - start + 1))
    with (Z.to_nat (start' - start) + Z.to_nat (dias - start' + 1))%nat by lia.
  rewrite dias_uteis_desde_split.
  replace (start + Z.of_nat (Z.to_nat (start' - start)))%Z with start' by lia.
  split.
  - pose proof (dias_uteis_desde_bounds (Z.to_nat (start' - start))
                  (Calendar.weekday y m start)). lia.
  - intros ->. replace (Z.to_nat (start + 7 - start)) with 7%nat by lia.
    rewrite dias_uteis_desde_week by apply weekday_range. lia.
Qed.

Lemma count_uteis_later_start_witness :
  count_uteis 2025 6 9 = Ok 16%Z /\ count_uteis 2025 6 16 = Ok 11%Z /\
  (11 <= 16 <= 11 + (16 - 9))%Z /\ (16 = 9 + 7 -> 16 = 11 + 5)%Z.
Proof.
  split; [reflexivity |]. split; [reflexivity |].
  apply (count_uteis_later_start 2025 6 9 16 16 11); try reflexivity. lia.
Defined.

(** ** The two tax tables, further *)

(** X4. The contribution of a non-negative salary is never negative, never
    above 12% of the salary and never above 872.2992, the contribution of
    the ceiling: the loop compares with [>] against the bound of each row,
    so the row of 14% is never reached; and up to 2793.88 the contribution
    is 7.5% of the salary. *)
Theorem calc_inss_at_most_12_percent (sal : Q) :
  0 <= sal ->
  0 <= calc_inss sal /\
  calc_inss sal <= sal * 0.12 /\
  calc_inss sal <= calc_inss INSS_TETO /\
  calc_inss INSS_TETO == 872.2992 /\
  (sal <= 2793.88 -> calc_inss sal == sal * 0.075).
Proof.
  intros H. rewrite !calc_inss_faixas. unfold INSS_TETO. cbv zeta.
  split; [| split; [| split; [| split; [| intros H']]]]; repeat caso_Q; lra.
Qed.

Lemma calc_inss_at_most_12_percent_witness :
  0 <= calc_inss 9000 /\
  calc_inss 9000 <= 9000 * 0.12 /\
  calc_inss 9000 <= calc_inss INSS_TETO /\
  calc_inss INSS_TETO == 872.2992 /\
  (9000 <= 2793.88 -> calc_inss 9000 == 9000 * 0.075).
Proof.
  apply (calc_inss_at_most_12_percent 9000). vm_compute. discriminate.
Defined.

(** X5. Right above 2793.88 and right above 4190.83 the contribution steps
    up by more than the salary grew: a salary in (2793.88, 2814.91] leaves
    less after the contribution than 2793.88 does, and a salary in
    (4190.83, 4238.44] less than 4190.83 does. *)
Theorem calc_inss_steps_lower_the_pay_after_contribution (sal : Q) :
  (2793.88 < sal -> sal <= 2814.91 ->
   sal - calc_inss sal < 2793.88 - calc_inss 2793.88) /\
  (4190.83 < sal -> sal <= 4238.44 ->
   sal - calc_inss sal < 4190.83 - calc_inss 4190.83).
Proof.
  rewrite !calc_inss_faixas. unfold INSS_TETO. cbv zeta.
  split; intros H1 H2; repeat caso_Q; lra.
Qed.

Lemma calc_inss_steps_lower_the_pay_after_contribution_witness :
  2800 - calc_inss 2800 < 2793.88 - calc_inss 2793.88.
Proof.
  destruct (calc_inss_steps_lower_the_pay_after_contribution 2800) as [H _].
  apply H; lra.
Defined.

(** X6. The income tax is never negative, it is 0 exactly for the bases up
    to 2428.80, and for a non-negative base it is at most 27.5% of the
    base. *)
Theorem calc_irrf_sign_and_bound (base : Q) :
  0 <= calc_irrf base /\
  (calc_irrf base == 0 <-> base <= 2428.80) /\
  (0 <= base -> calc_irrf base <= base * 0.275).
Proof.
  rewrite !calc_irrf_faixas. unfold irrf_faixa. cbv zeta.
  split; [| split; [split |]]; repeat caso_Q; lra.
Qed.

Lemma calc_irrf_sign_and_bound_witness :
  0 <= calc_irrf 3000 /\ ~ calc_irrf 3000 == 0 /\ calc_irrf 2000 == 0 /\
  calc_irrf 3000 <= 3000 * 0.275.
Proof.
  destruct (calc_irrf_sign_and_bound 3000) as (H1 & H2 & H3).
  destruct (calc_irrf_sign_and_bound 2000) as (_ & H4 & _).
  split; [exact H1 |]. split; [| split].
  - intros H. apply H2 in H. vm_compute in H. apply H. reflexivity.
  - apply H4. vm_compute. discriminate.
  - apply H3. vm_compute. discriminate.
Defined.

(** X7. The income tax grows with the base except for the steps down where
    two rows meet: a larger base never pays more than 0.006 less; right
    above 4664.68, up to 4664.70, it does pay less than 4664.68 does. *)
Theorem calc_irrf_almost_monotone (a b : Q) :
  a <= b ->
  calc_irrf a <= calc_irrf b + 0.006 /\
  (a == 4664.68 -> a < b -> b <= 4664.70 -> calc_irrf b < calc_irrf a).
Proof.
  intros Hab. rewrite !calc_irrf_faixas. unfold irrf_faixa. cbv zeta.
  split; repeat (caso_Q; try (exfalso; lra)); lra.
Qed.

Lemma calc_irrf_almost_monotone_witness :
  calc_irrf 4664.68 <= calc_irrf 4664.69 + 0.006 /\
  calc_irrf 4664.69 < calc_irrf 4664.68.
Proof.
  destruct (calc_irrf_almost_monotone 4664.68 4664.69) as [H1 H2];
    [vm_compute; discriminate |].
  split; [exact H1 |].
  apply H2; vm_compute; first [reflexivity | discriminate].
Defined.

(** ** The CLT branch, amount by amount *)

(** The pay slip of the CLT branch with every amount it was built from. *)
Lemma calcular_clt_valores (self : Calculadora) (ano mes : Z) (valor : Q)
    (dias : Z) (salario : Q) (dias_calc : Z) (pensao : Q) (h : Holerite) :
  calcular_clt self ano mes valor dias salario dias_calc pensao = Popup h ->
  exists h_extras perc_extra atraso_h atraso_m faltas_ vt uteis desc_vr desc_va,
    let v_h := val_hora (if (tipo_valor self =? "diario")%string then valor
                         else salario / inject_Z dias_calc) in
    let val_h_extras :=
      if Qltb 0 h_extras then calc_h_extra v_h h_extras perc_extra else 0 in
    let valor_atraso := v_h * (atraso_h + atraso_m / 60) in
    let valor_falta :=
      if (tipo_valor self =? "diario")%string then valor * faltas_
      else salario / inject_Z dias * faltas_ in
    let salario_bruto := salario + val_h_extras in
    let inss := calc_inss salario_bruto in
    let irrf := calc_irrf (salario_bruto - inss) in
    converte_ou (horas self) 0 = Ok h_extras /\
    converte_ou (percentual self) 0 = Ok perc_extra /\
    Qltb 0 h_extras && Qeq_bool perc_extra 0 = false /\
    converte_ou (atraso_horas self) 0 = Ok atraso_h /\
    converte_ou (atraso_minutos self) 0 = Ok atraso_m /\
    converte_ou (faltas self) 0 = Ok faltas_ /\
    (if vt_fixo self then Ok (converte_except (valor_vt_fixo self))
     else bind (converte_ou (vt_percentual self) 6) (fun vt_pct =>
          Ok (salario_bruto * (if Qltb 6 vt_pct then 6 else vt_pct) / 100)))
      = Ok vt /\
    count_uteis ano mes 1 = Ok uteis /\
    (if vr_fixo self then Ok (converte_except (valor_vr_fixo self))
     else bind (converte_ou (valor_vr self) 0) (fun vr =>
          Ok (vr * inject_Z uteis * 0.2))) = Ok desc_vr /\
    (if va_fixo self then Ok (converte_except (valor_va_fixo self))
     else bind (converte_ou (valor_va self) 0) (fun va =>
          Ok (va * inject_Z uteis * 0.2))) = Ok desc_va /\
    h = {| recebimentos :=
             [("Salário Bruto"%string, salario_bruto);
              ("Salário Base"%string, salario)]
             ++ se_positivo "Horas Extras" val_h_extras;
           descontos :=
             [("INSS"%string, inss); ("IRRF"%string, irrf)]
             ++ se_positivo "Pensão Alimentícia" pensao
             ++ [("Vale Transporte"%string, vt)]
             ++ se_positivo "Vale Refeição" desc_vr
             ++ se_positivo "Vale Alimentação" desc_va
             ++ se_positivo "Atraso" valor_atraso
             ++ se_positivo "Faltas" valor_falta;
           total_recebimento := salario_bruto;
           total_desconto :=
             inss + irrf + pensao + vt + desc_vr + desc_va + valor_atraso
             + valor_falta;
           liquido :=
             salario_bruto
             - (inss + irrf + pensao + vt + desc_vr + desc_va + valor_atraso
                + valor_falta) |}.
Proof.
  unfold calcular_clt. intros H.
  proximo H h_extras Eh. proximo H perc_extra Ep.
  destruct (Qltb 0 h_extras && Qeq_bool perc_extra 0) eqn:Echeck;
    [discriminate |].
  cbv zeta in H.
  proximo H atraso_h Eah. proximo H atraso_m Eam. proximo H faltas_ Ef.
  proximo H vt Evt. proximo H uteis Eu. proximo H desc_vr Evr.
  proximo H desc_va Eva.
  injection H as <-.
  exists h_extras, perc_extra, atraso_h, atraso_m, faltas_, vt, uteis,
    desc_vr, desc_va.
  cbv zeta. repeat (split; [assumption |]). reflexivity.
Qed.

(** A CLT run that shows a pay slip, down to the amounts. *)
Lemma executa_clt_valores (self : Calculadora) (u : Usuario) (h : Holerite) :
  tipo_contrato self = "CLT"%string ->
  executa u (calcular self) = Popup h ->
  exists m v dias salario dias_calc,
    converte (mes self) = Ok m /\
    converte (valor self) = Ok v /\
    Calendar.monthrange (int_digits 0 (ano self)) m = Ok dias /\
    salario_e_dias self u v dias = Some (salario, dias_calc) /\
    calcular_clt self (int_digits 0 (ano self)) m v dias salario dias_calc
      (ajuste_pensao self salario) = Popup h.
Proof.
  intros Hclt H. apply executa_calcular_popup in H.
  destruct H as (m & v & dias & salario & dias_calc & Em & Ev & Ed & Es & H).
  rewrite Hclt in H. cbn [String.eqb Ascii.eqb Bool.eqb] in H.
  exists m, v, dias, salario, dias_calc. auto.
Qed.

(** X8. The statutory deductions of a CLT pay slip are taken on the gross
    pay the slip shows: the entry [INSS] is [calc_inss] of the gross pay
    and the entry [IRRF] is [calc_irrf] of the gross pay minus that
    contribution; the gross pay is the first of the earnings and their
    total. *)
Theorem clt_statutory_deductions_on_gross_pay (self : Calculadora)
    (u : Usuario) (h : Holerite) :
  tipo_contrato self = "CLT"%string ->
  executa u (calcular self) = Popup h ->
  let bruto := total_recebimento h in
  valor_de "Salário Bruto" (recebimentos h) = Some bruto /\
  valor_de "INSS" (descontos h) = Some (calc_inss bruto) /\
  valor_de "IRRF" (descontos h) = Some (calc_irrf (bruto - calc_inss bruto)).
Proof.
  intros Hclt H. apply (executa_clt_valores self u h Hclt) in H.
  destruct H as (m & v & dias & salario & dias_calc & _ & _ & _ & _ & H).
  apply calcular_clt_valores in H.
  destruct H as (h_extras & perc_extra & atraso_h & atraso_m & faltas_ & vt
                 & uteis & desc_vr & desc_va & H).
  cbv zeta in H. destruct H as (_ & _ & _ & _ & _ & _ & _ & _ & _ & _ & ->).
  cbn [recebimentos descontos total_recebimento]. cbv zeta.
  repeat split; reflexivity.
Qed.

Lemma clt_statutory_deductions_on_gross_pay_witness :
  let h := holerite_de (executa sem_resposta (calcular clt_atraso_faltas)) in
  executa sem_resposta (calcular clt_atraso_faltas) = Popup h /\
  valor_de "Salário Bruto" (recebimentos h) = Some (total_recebimento h) /\
  valor_de "INSS" (descontos h) = Some (calc_inss (total_recebimento h)) /\
  valor_de "IRRF" (descontos h)
    = Some (calc_irrf (total_recebimento h - calc_inss (total_recebimento h))).
Proof.
  intros h.
  assert (E : executa sem_resposta (calcular clt_atraso_faltas) = Popup h)
    by (vm_compute; reflexivity).
  split; [exact E |].
  apply (clt_statutory_deductions_on_gross_pay clt_atraso_faltas sem_resposta h);
    first [exact E | reflexivity].
Defined.

(** X9. In a CLT pay slip the overtime, the lateness and the absences all
    come from the daily value, which is the value typed when it is a daily
    one and the salary divided by the days of the month otherwise: the
    overtime is a eighth of it times the hours times (1 + percent/100),
    for hours above 0; the lateness is a eighth of it times
    (hours + minutes/60); the absences are the daily value times the days.
    Each is listed when it is positive. *)
Theorem clt_amounts_from_daily_value (self : Calculadora) (u : Usuario)
    (h : Holerite) :
  tipo_contrato self = "CLT"%string ->
  executa u (calcular self) = Popup h ->
  exists v dias salario h_extras perc_extra atraso_h atraso_m faltas_
         extras atraso falta,
    converte (valor self) = Ok v /\
    (exists m, converte (mes self) = Ok m /\
               Calendar.monthrange (int_digits 0 (ano self)) m = Ok dias) /\
    valor_de "Salário Base" (recebimentos h) = Some salario /\
    converte_ou (horas self) 0 = Ok h_extras /\
    converte_ou (percentual self) 0 = Ok perc_extra /\
    converte_ou (atraso_horas self) 0 = Ok atraso_h /\
    converte_ou (atraso_minutos self) 0 = Ok atraso_m /\
    converte_ou (faltas self) 0 = Ok faltas_ /\
    let diaria := if (tipo_valor self =? "diario")%string then v
                  else salario / inject_Z dias in
    extras == (if Qltb 0 h_extras
               then diaria / 8 * h_extras * (1 + perc_extra / 100) else 0) /\
    atraso == diaria / 8 * (atraso_h + atraso_m / 60) /\
    falta == diaria * faltas_ /\
    total_recebimento h = salario + extras /\
    valor_de "Horas Extras" (recebimentos h)
      = (if Qltb 0 extras then Some extras else None) /\
    valor_de "Atraso" (descontos h)
      = (if Qltb 0 atraso then Some atraso else None) /\
    valor_de "Faltas" (descontos h)
      = (if Qltb 0 falta then Some falta else None).
Proof.
  intros Hclt H. apply (executa_clt_valores self u h Hclt) in H.
  destruct H as (m & v & dias & salario & dias_calc & Em & Ev & Ed & Es & H).
  apply calcular_clt_valores in H.
  destruct H as (h_extras & perc_extra & atraso_h & atraso_m & faltas_ & vt
                 & uteis & desc_vr & desc_va & H).
  cbv zeta in H.
  destruct H as (Eh & Ep & _ & Eah & Eam & Ef & _ & _ & _ & _ & ->).
  cbn [recebimentos descontos total_recebimento].
  assert (Hdias : (tipo_valor self =? "diario")%string = false ->
                  dias_calc = dias /\ salario = v).
  { intros E. unfold salario_e_dias in Es. rewrite E in Es.
    injection Es as <- <-. auto. }
  set (v_h := val_hora _).
  set (extras := if Qltb 0 h_extras then _ else 0).
  set (atraso := (v_h * _)%Q).
  set (falta := if (tipo_valor self =? "diario")%string then _ else _).
  exists v, dias, salario, h_extras, perc_extra, atraso_h, atraso_m, faltas_,
    extras, atraso, falta.
  do 8 (split; [first [assumption | reflexivity | eauto] |]).
  cbv zeta.
  assert (Hvh : v_h == (if (tipo_valor self =? "diario")%string then v
                        else salario / inject_Z dias) / 8).
  { unfold v_h. rewrite val_hora_eq.
    destruct (tipo_valor self =? "diario")%string; [reflexivity |].
    destruct Hdias as [-> _]; reflexivity. }
  split; [| split; [| split; [| split; [| split; [| split]]]]].
  - unfold extras, calc_h_extra. destruct (Qltb 0 h_extras); [| reflexivity].
    rewrite Hvh. reflexivity.
  - unfold atraso. rewrite Hvh. reflexivity.
  - unfold falta. destruct (tipo_valor self =? "diario")%string; reflexivity.
  - reflexivity.
  - clearbody extras. casos_listados.
  - clearbody extras atraso falta. casos_listados.
  - clearbody extras atraso falta. casos_listados.
Qed.

Lemma clt_amounts_from_daily_value_witness :
  let h := holerite_de (executa sem_resposta (calcular clt_atraso_faltas)) in
  executa sem_resposta (calcular clt_atraso_faltas) = Popup h /\
  exists extras atraso falta,
    valor_de "Horas Extras" (recebimentos h) = Some extras /\
    extras == 200 / 8 * 10 * (1 + 50 / 100) /\
    valor_de "Atraso" (descontos h) = Some atraso /\
    atraso == 200 / 8 * (1 + 30 / 60) /\
    valor_de "Faltas" (descontos h) = Some falta /\
    falta == 200 * 2.
Proof.
  intros h.
  assert (E : executa sem_resposta (calcular clt_atraso_faltas) = Popup h)
    by (vm_compute; reflexivity).
  split; [exact E |].
  destruct (clt_amounts_from_daily_value clt_atraso_faltas sem_resposta h)
    as (v & dias & salario & h_extras & perc_extra & atraso_h & atraso_m
        & faltas_ & extras & atraso & falta & Ev & _ & _ & Eh & Ep & Eah
        & Eam & Ef & Hx & Ha & Hf & _ & Lx & La & Lf);
    [reflexivity | exact E |].
  cbn in Ev, Eh, Ep, Eah, Eam, Ef.
  injection Ev as <-. injection Eh as <-. injection Ep as <-.
  injection Eah as <-. injection Eam as <-. injection Ef as <-.
  cbn [tipo_valor clt_atraso_faltas String.eqb Ascii.eqb Bool.eqb] in Hx, Ha, Hf.
  assert (Px : Qltb 0 extras = true)
    by (apply Qltb_true; rewrite Hx; vm_compute; reflexivity).
  assert (Pa : Qltb 0 atraso = true)
    by (apply Qltb_true; rewrite Ha; vm_compute; reflexivity).
  assert (Pf : Qltb 0 falta = true)
    by (apply Qltb_true; rewrite Hf; vm_compute; reflexivity).
  rewrite Px in Lx. rewrite Pa in La. rewrite Pf in Lf.
  exists extras, atraso, falta.
  repeat split; assumption.
Defined.

(** ** The pay slip as a whole *)

Lemma soma_app (l1 l2 : list (string * Q)) :
  soma (l1 ++ l2) == soma l1 + soma l2.
Proof.
  induction l1 as [| [n v] l1 IH]; cbn [app soma]; [ring |].
  rewrite IH. ring.
Qed.

Lemma soma_se_positivo (nome : string) (v : Q) :
  v <= soma (se_positivo nome v) /\ 0 <= soma (se_positivo nome v) /\
  (0 <= v -> soma (se_positivo nome v) == v).
Proof.
  unfold se_positivo. destruct (Qltb 0 v) eqn:E; cbn [soma].
  - apply Qltb_true in E. split; [| split; [| intros _]]; lra.
  - apply Qltb_false in E. split; [| split; [| intros H]]; lra.
Qed.

(** What a run that shows a pay slip went through, contract by contract. *)
Lemma executa_popup_por_contrato (self : Calculadora) (u : Usuario) (h : Holerite) :
  executa u (calcular self) = Popup h ->
  exists m v dias salario dias_calc,
    converte (mes self) = Ok m /\
    converte (valor self) = Ok v /\
    Calendar.monthrange (int_digits 0 (ano self)) m = Ok dias /\
    salario_e_dias self u v dias = Some (salario, dias_calc) /\
    ((tipo_contrato self = "CLT"%string /\
      calcular_clt self (int_digits 0 (ano self)) m v dias salario dias_calc
        (ajuste_pensao self salario) = Popup h) \/
     (tipo_contrato self = "PJ"%string /\
      calcular_pj salario (ajuste_pensao self salario) = Popup h) \/
     (tipo_contrato self = "MEI"%string /\
      exists t, tipo_ativ u = Some t /\
        executa u (calcular_mei salario (ajuste_pensao self salario)) = Popup h)).
Proof.
  intros H. apply executa_calcular_popup in H.
  destruct H as (m & v & dias & salario & dias_calc & Em & Ev & Ed & Es & H).
  exists m, v, dias, salario, dias_calc.
  do 4 (split; [assumption |]).
  destruct (tipo_contrato self =? "CLT")%string eqn:E1.
  { apply String.eqb_eq in E1. auto. }
  destruct (tipo_contrato self =? "PJ")%string eqn:E2.
  { apply String.eqb_eq in E2. auto. }
  destruct (tipo_contrato self =? "MEI")%string eqn:E3; [| discriminate].
  apply String.eqb_eq in E3. right. right. split; [assumption |].
  unfold calcular_mei in H |- *. cbn [executa] in H |- *.
  destruct (tipo_ativ u) as [t |]; [eauto | discriminate].
Qed.

(** X10. On every pay slip shown, of any contract, the net amount is the
    total of the earnings minus the total of the deductions, and the total
    of the deductions is at most the sum of the deductions listed: an
    amount is left off the list only when it is not positive, and it is
    still part of the total. *)
Theorem payslip_net_and_total (self : Calculadora) (u : Usuario) (h : Holerite) :
  executa u (calcular self) = Popup h ->
  liquido h == total_recebimento h - total_desconto h /\
  total_desconto h <= soma (descontos h).
Proof.
  intros H. apply executa_popup_por_contrato in H.
  destruct H as (m & v & dias & salario & dias_calc & _ & _ & _ & _ & H).
  destruct H as [[_ H] | [[_ H] | [_ (t & Ht & H)]]].
  - apply calcular_clt_valores in H.
    destruct H as (h_extras & perc_extra & atraso_h & atraso_m & faltas_ & vt
                   & uteis & desc_vr & desc_va & H).
    cbv zeta in H. destruct H as (_ & _ & _ & _ & _ & _ & _ & _ & _ & _ & ->).
    cbn [recebimentos descontos total_recebimento total_desconto liquido].
    split; [reflexivity |].
    rewrite ?soma_app. cbn [soma app]. rewrite ?soma_app.
    repeat match goal with
      | |- context [soma (se_positivo ?n ?x)] =>
          let P := fresh "P" in
          destruct (soma_se_positivo n x) as (P & _ & _);
          generalize dependent (soma (se_positivo n x)); intros
      end.
    lra.
  - unfold calcular_pj in H. cbv zeta in H. injection H as <-.
    cbn [recebimentos descontos total_recebimento total_desconto liquido].
    split; [reflexivity |].
    rewrite ?soma_app. cbn [soma app]. rewrite ?soma_app.
    destruct (soma_se_positivo "Pensão Alimentícia" (ajuste_pensao self salario))
      as (P & _ & _).
    lra.
  - unfold calcular_mei in H. cbn [executa] in H. rewrite Ht in H.
    cbv zeta in H. injection H as <-.
    cbn [recebimentos descontos total_recebimento total_desconto liquido].
    split; [reflexivity |].
    rewrite ?soma_app. cbn [soma app]. rewrite ?soma_app.
    destruct (soma_se_positivo "Pensão Alimentícia" (ajuste_pensao self salario))
      as (P & _ & _).
    lra.
Qed.

Lemma payslip_net_and_total_witness :
  let h := holerite_de (executa sem_resposta (calcular clt_atraso_faltas)) in
  executa sem_resposta (calcular clt_atraso_faltas) = Popup h /\
  liquido h == total_recebimento h - total_desconto h /\
  total_desconto h <= soma (descontos h).
Proof.
  intros h.
  assert (E : executa sem_resposta (calcular clt_atraso_faltas) = Popup h)
    by (vm_compute; reflexivity).
  split; [exact E |].
  apply (payslip_net_and_total clt_atraso_faltas sem_resposta h). exact E.
Defined.

(** ** What a run needs to show a pay slip *)

Lemma int_digits_bounds (s : string) (acc : Z) :
  all_digits s = true -> (0 <= acc)%Z ->
  (0 <= int_digits acc s < (acc + 1) * 10 ^ Z.of_nat (String.length s))%Z.
Proof.
  revert acc. induction s as [| c s IH]; intros acc Hd Hacc.
  - cbn. lia.
  - cbn [all_digits] in Hd. apply andb_prop in Hd. destruct Hd as [Hc Hs].
    unfold is_digit in Hc. apply andb_prop in Hc. destruct Hc as [Hc1 Hc2].
    apply Nat.leb_le in Hc1, Hc2.
    cbn [int_digits String.length].
    specialize (IH (10 * acc + (Z.of_nat (nat_of_ascii c) - 48))%Z Hs).
    rewrite Nat2Z.inj_succ, Z.pow_succ_r by lia.
    assert (0 < 10 ^ Z.of_nat (String.length s))%Z by (apply Z.pow_pos_nonneg; lia).
    nia.
Qed.

(** X11. A pay slip is shown only for a year typed as exactly four digits,
    hence between 0 and 9999, a month from 1 to 12 and a base value that
    is a number, under one of the three contracts; a CLT pay slip also
    needs a year from 1 on, because [count_uteis] builds a date, so the
    year 0000 only passes for PJ and MEI. *)
Theorem payslip_needs_valid_date_and_value (self : Calculadora) (u : Usuario)
    (h : Holerite) :
  executa u (calcular self) = Popup h ->
  String.length (ano self) = 4%nat /\
  isdigit (ano self) = true /\
  (0 <= int_digits 0 (ano self) <= 9999)%Z /\
  (exists m, mes self = Texto m /\ (1 <= m <= 12)%Z) /\
  (exists v, valor self = Texto v) /\
  (tipo_contrato self = "CLT"%string \/ tipo_contrato self = "PJ"%string \/
   tipo_contrato self = "MEI"%string) /\
  (tipo_contrato self = "CLT"%string -> (1 <= int_digits 0 (ano self))%Z).
Proof.
  intros H.
  assert (Hano : String.length (ano self) = 4%nat /\ isdigit (ano self) = true).
  { rewrite executa_calcular in H.
    destruct (String.length (ano self) =? 4)%nat eqn:E1;
      [| discriminate].
    destruct (isdigit (ano self)) eqn:E2; [| discriminate].
    apply Nat.eqb_eq in E1. auto. }
  destruct Hano as [Hlen Hdig].
  apply executa_popup_por_contrato in H.
  destruct H as (m & v & dias & salario & dias_calc & Em & Ev & Ed & _ & H).
  split; [exact Hlen |]. split; [exact Hdig |]. split.
  { assert (Hall : all_digits (ano self) = true).
    { unfold isdigit in Hdig. destruct (ano self); [discriminate | exact Hdig]. }
    pose proof (int_digits_bounds (ano self) 0 Hall ltac:(lia)) as Hb.
    rewrite Hlen in Hb. cbn in Hb. lia. }
  split.
  { destruct (mes self) as [| | m']; try discriminate.
    injection Em as ->. exists m. split; [reflexivity |].
    apply monthrange_ok in Ed. lia. }
  split.
  { destruct (valor self) as [| | v']; try discriminate. eauto. }
  split.
  { destruct H as [[E _] | [[E _] | [E _]]]; auto. }
  intros Hclt.
  destruct H as [[_ H] | [[E _] | [E _]]];
    [| rewrite Hclt in E; discriminate | rewrite Hclt in E; discriminate].
  apply calcular_clt_valores in H.
  destruct H as (h_extras & perc_extra & atraso_h & atraso_m & faltas_ & vt
                 & uteis & desc_vr & desc_va & H).
  cbv zeta in H. destruct H as (_ & _ & _ & _ & _ & _ & _ & Eu & _).
  apply count_uteis_ok in Eu. lia.
Qed.

Lemma payslip_needs_valid_date_and_value_witness :
  let self := formulario "PJ" "total" "mes" 5000 4 "0000" in
  let h := holerite_de (executa sem_resposta (calcular self)) in
  executa sem_resposta (calcular self) = Popup h /\
  int_digits 0 (ano self) = 0%Z /\
  (forall h', executa sem_resposta
                (calcular (formulario "CLT" "total" "mes" 5000 4 "0000"))
              <> Popup h').
Proof.
  intros self h.
  assert (E : executa sem_resposta (calcular self) = Popup h)
    by (vm_compute; reflexivity).
  split; [exact E |]. split; [reflexivity |].
  intros h' H'.
  pose proof (payslip_needs_valid_date_and_value _ _ _ H')
    as (_ & _ & _ & _ & _ & _ & Hy).
  specialize (Hy eq_refl). vm_compute in Hy. apply Hy. reflexivity.
Defined.

(** ** The dialogs *)

(** X12. A dialog that the run does not open has no say: the start-day
    dialog is only opened for a daily value with a scope other than the
    whole month, the activity dialog only under the MEI contract.  Two
    users who answer the dialogs that are opened alike get the same
    result. *)
Theorem unopened_dialogs_do_not_matter (self : Calculadora) (u u' : Usuario) :
  (tipo_valor self = "diario"%string -> tipo_calculo self <> "mes"%string ->
   dia_ini u = dia_ini u') ->
  (tipo_contrato self = "MEI"%string -> tipo_ativ u = tipo_ativ u') ->
  executa u (calcular self) = executa u' (calcular self).
Proof.
  intros Hdia Hmei. rewrite !executa_calcular.
  destruct (negb (String.length (ano self) =? 4)%nat || negb (isdigit (ano self)));
    [reflexivity |].
  destruct (converte (mes self)) as [m | e]; [| reflexivity].
  destruct (converte (valor self)) as [v | e]; [| reflexivity].
  destruct (Calendar.monthrange (int_digits 0 (ano self)) m) as [dias | e];
    [| reflexivity].
  assert (Es : salario_e_dias self u v dias = salario_e_dias self u' v dias).
  { unfold salario_e_dias.
    destruct (tipo_valor self =? "diario")%string eqn:E1; [| reflexivity].
    destruct (tipo_calculo self =? "mes")%string eqn:E2; [reflexivity |].
    apply String.eqb_eq in E1. apply String.eqb_neq in E2.
    rewrite (Hdia E1 E2). reflexivity. }
  rewrite Es.
  destruct (salario_e_dias self u' v dias) as [[salario dias_calc] |];
    [| reflexivity].
  cbv zeta.
  destruct (tipo_contrato self =? "CLT")%string; [reflexivity |].
  destruct (tipo_contrato self =? "PJ")%string; [reflexivity |].
  destruct (tipo_contrato self =? "MEI")%string eqn:E3; [| reflexivity].
  apply String.eqb_eq in E3.
  unfold calcular_mei. cbn [executa]. rewrite (Hmei E3).
  destruct (tipo_ativ u'); reflexivity.
Qed.

Lemma unopened_dialogs_do_not_matter_witness :
  executa dia_16 (calcular clt_atraso_faltas)
  = executa ambos (calcular clt_atraso_faltas).
Proof.
  apply (unopened_dialogs_do_not_matter clt_atraso_faltas dia_16 ambos).
  - intros _ H. exfalso. apply H. reflexivity.
  - intros H. discriminate H.
Defined.

(** X13. When the start-day dialog is opened and cancelled, the run ends
    there, under any contract: no pay slip is shown, the activity dialog
    of the MEI branch is not opened, and a form with a well-formed year,
    month and base value ends in the bare return, with no message. *)
Theorem start_day_cancelled_ends_the_run (self : Calculadora) (u : Usuario) :
  tipo_valor self = "diario"%string ->
  tipo_calculo self <> "mes"%string ->
  dia_ini u = None ->
  (forall h, executa u (calcular self) <> Popup h) /\
  abre_MEIPopup u (calcular self) = false /\
  (String.length (ano self) = 4%nat -> isdigit (ano self) = true ->
   forall m v dias,
     mes self = Texto m -> valor self = Texto v ->
     Calendar.monthrange (int_digits 0 (ano self)) m = Ok dias ->
     executa u (calcular self) = Retorno).
Proof.
  intros Hdiario Hdata Hnone.
  assert (Es : forall v dias, salario_e_dias self u v dias = None).
  { intros v dias. unfold salario_e_dias. rewrite Hdiario.
    cbn [String.eqb Ascii.eqb Bool.eqb].
    apply String.eqb_neq in Hdata. rewrite Hdata, Hnone. reflexivity. }
  split; [| split].
  - intros h H. apply executa_calcular_popup in H.
    destruct H as (m & v & dias & salario & dias_calc & _ & _ & _ & E & _).
    rewrite Es in E. discriminate.
  - unfold calcular, tentar, ajuste_salario. rewrite Hdiario.
    apply String.eqb_neq in Hdata. rewrite Hdata.
    cbn [String.eqb Ascii.eqb Bool.eqb].
    repeat match goal with
      | |- context [if ?b then _ else _] => destruct b
      | |- context [match ?x with Ok _ => _ | Raise _ => _ end] => destruct x
      | _ => progress cbn [abre_MEIPopup]
      | _ => rewrite Hnone
      end;
      reflexivity.
  - intros Hlen Hdig m v dias Em Ev Ed.
    rewrite executa_calcular, Hlen, Hdig, Em, Ev. cbn [Nat.eqb negb orb converte].
    rewrite Ed, Es. reflexivity.
Qed.

Lemma start_day_cancelled_ends_the_run_witness :
  executa sem_resposta (calcular clt_diario_data) = Retorno /\
  abre_MEIPopup sem_resposta (calcular clt_diario_data) = false.
Proof.
  destruct (start_day_cancelled_ends_the_run clt_diario_data sem_resposta)
    as (_ & H2 & H3); try reflexivity.
  - discriminate.
  - split; [| exact H2].
    apply (H3 eq_refl eq_refl 6%Z 100 30%Z); reflexivity.
Defined.

(** ** Fields that are not read, and the widgets *)

Lemma calcular_clt_apaga_inativos (self : Calculadora) (ano mes : Z) (valor : Q)
    (dias : Z) (salario : Q) (dias_calc : Z) (pensao : Q) :
  tipo_contrato self = "CLT"%string ->
  calcular_clt (apaga_inativos self) ano mes valor dias salario dias_calc pensao
  = calcular_clt self ano mes valor dias salario dias_calc pensao.
Proof.
  intros Hclt. unfold calcular_clt, apaga_inativos.
  cbn [horas percentual tipo_valor atraso_horas atraso_minutos faltas vt_fixo
       valor_vt_fixo vt_percentual vr_fixo valor_vr_fixo valor_vr va_fixo
       valor_va_fixo valor_va].
  rewrite Hclt. cbn [String.eqb Ascii.eqb Bool.eqb andb].
  destruct (vt_fixo self), (vr_fixo self), (va_fixo self); reflexivity.
Qed.

(** Emptying the fields that are not read leaves the run as it is. *)
Lemma executa_apaga_inativos (self : Calculadora) (u : Usuario) :
  executa u (calcular self) = executa u (calcular (apaga_inativos self)).
Proof.
  rewrite !executa_calcular.
  cbn [apaga_inativos ano mes valor tipo_contrato].
  destruct (negb (String.length (ano self) =? 4)%nat || negb (isdigit (ano self)));
    [reflexivity |].
  destruct (converte (mes self)) as [m | e]; [| reflexivity].
  destruct (converte (valor self)) as [v | e]; [| reflexivity].
  destruct (Calendar.monthrange (int_digits 0 (ano self)) m) as [dias | e];
    [| reflexivity].
  assert (Es : salario_e_dias (apaga_inativos self) u v dias
               = salario_e_dias self u v dias).
  { unfold salario_e_dias. cbn [apaga_inativos tipo_valor tipo_calculo].
    destruct (tipo_valor self =? "diario")%string; reflexivity. }
  rewrite Es.
  destruct (salario_e_dias self u v dias) as [[salario dias_calc] |];
    [| reflexivity].
  assert (Ep : ajuste_pensao (apaga_inativos self) salario
               = ajuste_pensao self salario).
  { unfold ajuste_pensao.
    cbn [apaga_inativos paga_pensao tipo_pensao valor_pensao].
    destruct (paga_pensao self); reflexivity. }
  cbv zeta. rewrite Ep.
  destruct (tipo_contrato self =? "CLT")%string eqn:E1; [| reflexivity].
  apply String.eqb_eq in E1. rewrite calcular_clt_apaga_inativos by exact E1.
  reflexivity.
Qed.

(** X14. [calcular] reads of a form only the fields of its contract and,
    of a voucher, only the amount of the mode it is in: the run ends the
    same when every other field is emptied, whatever was left in it, even
    a text that is no number.  The fields of the CLT branch are not read
    under PJ and MEI, the fixed amount of a voucher is not read in the
    proportional mode nor the proportional one in the fixed mode, the
    alimony fields are not read when no alimony is paid, and the scope is
    not read when the value is not a daily one. *)
Theorem unread_fields_do_not_matter (self : Calculadora) (u : Usuario) :
  executa u (calcular self) = executa u (calcular (apaga_inativos self)).
Proof. apply executa_apaga_inativos. Qed.

(** The configuration of each widget after [atualizar_campos]. *)
Lemma atualizar_campos_config (self : Calculadora) (w : Widgets) :
  let w' := atualizar_campos self w in
  let clt := (tipo_contrato self =? "CLT")%string in
  gridded (w' label_horas) = clt /\ gridded (w' entry_horas) = clt /\
  gridded (w' label_perc) = clt /\ gridded (w' entry_perc) = clt /\
  gridded (w' atraso_frame) = clt /\ gridded (w' faltas_frame) = clt /\
  gridded (w' vr_frame) = clt /\ gridded (w' va_frame) = clt /\
  gridded (w' vt_frame) = clt /\
  gridded (w' chk_pensao) = true /\
  gridded (w' frame_pensao) = paga_pensao self /\
  state (w' entry_vr_fixo) = (if vr_fixo self then normal else disabled) /\
  state (w' entry_vr) = (if vr_fixo self then disabled else normal) /\
  state (w' entry_va_fixo) = (if va_fixo self then normal else disabled) /\
  state (w' entry_va) = (if va_fixo self then disabled else normal) /\
  state (w' entry_vt_fixo) = (if vt_fixo self then normal else disabled) /\
  state (w' entry_vt_percent) = (if vt_fixo self then disabled else normal).
Proof.
  cbv zeta. unfold atualizar_campos, toggle_vr_fixo, toggle_va_fixo,
    toggle_vt_fixo, atualizar_pensao.
  destruct (tipo_contrato self =? "CLT")%string;
    [| destruct (tipo_contrato self =? "PJ")%string];
    destruct (vr_fixo self), (va_fixo self), (vt_fixo self),
      (paga_pensao self);
    try destruct (tipo_pensao self =? "percent")%string;
    repeat split; reflexivity.
Qed.

(** X15. After [atualizar_campos], whatever the widgets were before: the
    overtime, lateness, absence and voucher widgets are on the grid exactly
    under the CLT contract, the alimony frame exactly when alimony is
    paid, the alimony check button always; and of the two entries of each
    voucher exactly one is enabled, the fixed amount in the fixed mode and
    the proportional one otherwise. *)
Theorem atualizar_campos_shows_and_enables (self : Calculadora) (w : Widgets) :
  let w' := atualizar_campos self w in
  let clt := (tipo_contrato self =? "CLT")%string in
  (forall x, In x [label_horas; entry_horas; label_perc; entry_perc;
                   atraso_frame; faltas_frame; vr_frame; va_frame; vt_frame] ->
             gridded (w' x) = clt) /\
  gridded (w' chk_pensao) = true /\
  gridded (w' frame_pensao) = paga_pensao self /\
  (forall fixo prop flag,
     In (fixo, prop, flag)
        [(entry_vr_fixo, entry_vr, vr_fixo self);
         (entry_va_fixo, entry_va, va_fixo self);
         (entry_vt_fixo, entry_vt_percent, vt_fixo self)] ->
     state (w' fixo) = (if flag then normal else disabled) /\
     state (w' prop) = (if flag then disabled else normal) /\
     state (w' fixo) <> state (w' prop)).
Proof.
  cbv zeta.
  pose proof (atualizar_campos_config self w) as H. cbv zeta in H.
  destruct H as (H1 & H2 & H3 & H4 & H5 & H6 & H7 & H8 & H9 & H10 & H11
                 & H12 & H13 & H14 & H15 & H16 & H17).
  split; [| split; [exact H10 | split; [exact H11 |]]].
  - intros x Hx. cbn [In] in Hx.
    destruct Hx as [<- | [<- | [<- | [<- | [<- | [<- | [<- | [<- | [<- | []]]]]]]]]];
      assumption.
  - intros fixo prop flag Hx. cbn [In] in Hx.
    destruct Hx as [Hx | [Hx | [Hx | []]]]; injection Hx as <- <- <-.
    + rewrite H12, H13. destruct (vr_fixo self); repeat split; discriminate.
    + rewrite H14, H15. destruct (va_fixo self); repeat split; discriminate.
    + rewrite H16, H17. destruct (vt_fixo self); repeat split; discriminate.
Qed.

Lemma atualizar_campos_shows_and_enables_witness :
  let w' := atualizar_campos clt_fixos_invalidos widgets_iniciais in
  gridded (w' vr_frame) = true /\
  state (w' entry_vr_fixo) = normal /\ state (w' entry_vr) = disabled /\
  gridded (w' frame_pensao) = true.
Proof.
  intros w'.
  destruct (atualizar_campos_shows_and_enables clt_fixos_invalidos widgets_iniciais)
    as (H1 & _ & H3 & H4).
  split; [apply H1; cbn; tauto |].
  destruct (H4 entry_vr_fixo entry_vr true) as (H5 & H6 & _); [cbn; tauto |].
  repeat split; assumption.
Defined.

Lemma concorda_apaga_inativos (self self' : Calculadora) (w : Widgets) :
  concorda (atualizar_campos self w) self self' ->
  apaga_inativos self = apaga_inativos self'.
Proof.
  unfold concorda, editavel.
  pose proof (atualizar_campos_config self w) as H. cbv zeta in H.
  destruct H as (_ & H2 & _ & H4 & H5 & H6 & H7 & H8 & H9 & H10 & H11
                 & H12 & H13 & H14 & H15 & H16 & H17).
  rewrite H2, H4, H5, H6, H7, H8, H9, H10, H11, H12, H13, H14, H15, H16, H17.
  clear H2 H4 H5 H6 H7 H8 H9 H10 H11 H12 H13 H14 H15 H16 H17.
  unfold apaga_inativos.
  destruct self, self'.
  cbn [tipo_contrato tipo_valor tipo_calculo valor mes ano horas percentual
       paga_pensao tipo_pensao valor_pensao vr_fixo valor_vr_fixo valor_vr
       va_fixo valor_va_fixo valor_va vt_fixo valor_vt_fixo vt_percentual
       atraso_horas atraso_minutos faltas].
  intros (-> & -> & -> & -> & -> & -> & C1 & C2 & C3 & C4 & C5 & C6 & C7 & C8
          & C9 & C10 & C11 & C12 & C13 & C14 & C15).
  rewrite <- (C14 eq_refl).
  destruct (tipo_contrato1 =? "CLT")%string.
  - rewrite <- (C1 eq_refl), <- (C2 eq_refl), <- (C4 eq_refl),
      <- (C5 eq_refl), <- (C8 eq_refl), <- (C11 eq_refl).
    destruct (C3 eq_refl) as [<- <-].
    cbn [andb] in *.
    assert (P : forall (b : bool) (e e' : entry Q) (s s' : string),
               (b = true -> s = s' /\ e = e') ->
               (if b then s else "percent"%string)
               = (if b then s' else "percent"%string) /\
               (if b then e else Vazio) = (if b then e' else Vazio)).
    { intros [] e e' s s' Hb; [apply Hb; reflexivity | auto]. }
    destruct (P _ _ _ _ _ C15) as [-> ->].
    destruct vr_fixo0, va_fixo0, vt_fixo0; cbn [negb andb] in *;
      repeat match goal with
        | Hc : true = true -> _ |- _ => specialize (Hc eq_refl); subst
        end;
      reflexivity.
  - cbn [andb].
    assert (P : forall (b : bool) (e e' : entry Q) (s s' : string),
               (b = true -> s = s' /\ e = e') ->
               (if b then s else "percent"%string)
               = (if b then s' else "percent"%string) /\
               (if b then e else Vazio) = (if b then e' else Vazio)).
    { intros [] e e' s s' Hb; [apply Hb; reflexivity | auto]. }
    destruct (P _ _ _ _ _ C15) as [-> ->].
    reflexivity.
Qed.

(** X16. What [atualizar_campos] hides or disables, [calcular] does not
    read: two forms that differ only in the text of entries that are
    disabled or off the grid after [atualizar_campos], or in the choices
    inside a frame that is off the grid, end the run the same. *)
Theorem hidden_or_disabled_fields_do_not_matter (self self' : Calculadora)
    (w : Widgets) (u : Usuario) :
  concorda (atualizar_campos self w) self self' ->
  executa u (calcular self) = executa u (calcular self').
Proof.
  intros H. apply concorda_apaga_inativos in H.
  rewrite (executa_apaga_inativos self u),
    (executa_apaga_inativos self' u), H.
  reflexivity.
Qed.

Lemma hidden_or_disabled_fields_do_not_matter_witness :
  valor_vt_fixo clt_vt_dez <> valor_vt_fixo clt_vt_dez_resto /\
  executa sem_resposta (calcular clt_vt_dez)
  = executa sem_resposta (calcular clt_vt_dez_resto).
Proof.
  split; [discriminate |].
  apply (hidden_or_disabled_fields_do_not_matter
           clt_vt_dez clt_vt_dez_resto widgets_iniciais sem_resposta).
  unfold concorda.
  repeat split; try reflexivity; intros H; try reflexivity;
    vm_compute in H; discriminate H.
Defined.



(** ** Forms without negative amounts *)

Lemma calc_inss_nonneg (sal : Q) : 0 <= sal -> 0 <= calc_inss sal.
Proof.
  intros H. rewrite calc_inss_faixas. unfold INSS_TETO. cbv zeta.
  repeat caso_Q; lra.
Qed.

Lemma calc_irrf_nonneg (base : Q) : 0 <= calc_irrf base.
Proof.
  rewrite calc_irrf_faixas. unfold irrf_faixa. cbv zeta.
  repeat caso_Q; lra.
Qed.

Lemma Qdiv_nonneg (a c : Q) : 0 <= a -> 0 < c -> 0 <= a / c.
Proof.
  intros Ha Hc. apply Qle_shift_div_l; [exact Hc |]. lra.
Qed.

Lemma val_hora_nonneg (d : Q) : 0 <= d -> 0 <= val_hora d.
Proof. intros H. rewrite val_hora_eq. apply Qdiv_nonneg; lra. Qed.

Lemma Qdiv_inject_Z_nonneg (a : Q) (z : Z) :
  0 <= a -> (0 <= z)%Z -> 0 <= a / inject_Z z.
Proof.
  intros Ha Hz. unfold Qdiv. apply Qmult_le_0_compat; [exact Ha |].
  apply Qinv_le_0_compat. change 0 with (inject_Z 0).
  rewrite <- Zle_Qle. exact Hz.
Qed.

Lemma inject_Z_nonneg (z : Z) : (0 <= z)%Z -> 0 <= inject_Z z.
Proof. intros Hz. change 0 with (inject_Z 0). rewrite <- Zle_Qle. exact Hz. Qed.

Lemma converte_nonneg (e : entry Q) (a : Q) :
  nao_negativa e = true -> converte e = Ok a -> 0 <= a.
Proof.
  destruct e as [| | b]; cbn; try discriminate.
  intros H E. injection E as <-. apply Qleb_true. exact H.
Qed.

Lemma converte_ou_nonneg (e : entry Q) (d a : Q) :
  nao_negativa e = true -> 0 <= d -> converte_ou e d = Ok a -> 0 <= a.
Proof.
  destruct e as [| | b]; cbn; try discriminate.
  - intros _ Hd E. injection E as <-. exact Hd.
  - intros H _ E. injection E as <-. apply Qleb_true. exact H.
Qed.

Lemma converte_except_nonneg (e : entry Q) :
  nao_negativa e = true -> 0 <= converte_except e.
Proof.
  destruct e as [| | b]; cbn; try (intros _; lra).
  intros H. apply Qleb_true. exact H.
Qed.

Lemma Forall_se_positivo (nome : string) (v : Q) :
  Forall (fun p : string * Q => 0 <= snd p) (se_positivo nome v).
Proof.
  unfold se_positivo. destruct (Qltb 0 v) eqn:E; [| constructor].
  apply Qltb_true in E. constructor; [cbn; lra | constructor].
Qed.

(** With answers the dialogs can return, the days paid are between 1 and
    the days of the month. *)
Lemma respeita_limites_dias_calc (self : Calculadora) (u : Usuario)
    (m : Z) (v : Q) (dias : Z) (salario : Q) (dias_calc : Z) :
  negb (String.length (ano self) =? 4)%nat || negb (isdigit (ano self)) = false ->
  converte (mes self) = Ok m ->
  converte (valor self) = Ok v ->
  Calendar.monthrange (int_digits 0 (ano self)) m = Ok dias ->
  respeita_limites u (calcular self) = true ->
  salario_e_dias self u v dias = Some (salario, dias_calc) ->
  (1 <= dias_calc <= dias)%Z /\
  (salario = v \/ salario = v * inject_Z dias_calc).
Proof.
  intros Hano Em Ev Ed Hr Es.
  pose proof (monthrange_ok _ _ _ Ed) as [_ Hdias].
  unfold calcular in Hr. rewrite Hano, Em in Hr. cbn [tentar] in Hr.
  rewrite Ev in Hr. cbn [tentar] in Hr. rewrite Ed in Hr. cbn [tentar] in Hr.
  unfold ajuste_salario in Hr. unfold salario_e_dias in Es.
  destruct (tipo_valor self =? "diario")%string.
  - destruct (tipo_calculo self =? "mes")%string.
    + injection Es as <- <-. split; [lia | auto].
    + cbn [respeita_limites] in Hr.
      destruct (dia_ini u) as [d |]; [| discriminate].
      injection Es as <- <-.
      apply andb_prop in Hr. destruct Hr as [Hr _].
      apply andb_prop in Hr. destruct Hr as [H1 H2].
      apply Z.leb_le in H1, H2. split; [lia | auto].
  - injection Es as <- <-. split; [lia | auto].
Qed.

Lemma sem_negativos_campos (self : Calculadora) :
  sem_negativos self = true ->
  nao_negativa (valor self) = true /\ nao_negativa (horas self) = true /\
  nao_negativa (percentual self) = true /\
  nao_negativa (valor_pensao self) = true /\
  nao_negativa (valor_vr_fixo self) = true /\
  nao_negativa (valor_vr self) = true /\
  nao_negativa (valor_va_fixo self) = true /\
  nao_negativa (valor_va self) = true /\
  nao_negativa (valor_vt_fixo self) = true /\
  nao_negativa (vt_percentual self) = true /\
  nao_negativa (atraso_horas self) = true /\
  nao_negativa (atraso_minutos self) = true /\
  nao_negativa (faltas self) = true.
Proof.
  unfold sem_negativos. rewrite !andb_true_iff. tauto.
Qed.

Lemma ajuste_pensao_nonneg (self : Calculadora) (salario : Q) :
  nao_negativa (valor_pensao self) = true -> 0 <= salario ->
  0 <= ajuste_pensao self salario.
Proof.
  intros Hp Hs. unfold ajuste_pensao.
  pose proof (converte_except_nonneg _ Hp) as Hc.
  destruct (paga_pensao self); [| lra].
  destruct (tipo_pensao self =? "percent")%string; [| exact Hc].
  apply Qdiv_nonneg; [| lra].
  apply Qmult_le_0_compat; assumption.
Qed.

(** A voucher deduction is not negative when its amounts are not. *)
Lemma desconto_vale_nonneg (fixo : bool) (e_fixo e : entry Q) (uteis : Z) (d : Q) :
  nao_negativa e_fixo = true -> nao_negativa e = true -> (0 <= uteis)%Z ->
  (if fixo then Ok (converte_except e_fixo)
   else bind (converte_ou e 0) (fun x => Ok (x * inject_Z uteis * 0.2))) = Ok d ->
  0 <= d.
Proof.
  intros Hf He Hu. destruct fixo.
  - intros E. injection E as <-. apply converte_except_nonneg. exact Hf.
  - destruct (converte_ou e 0) as [x |] eqn:Ex; cbn [bind]; [| discriminate].
    intros E. injection E as <-.
    apply (converte_ou_nonneg _ _ _ He) in Ex; [| lra].
    apply Qmult_le_0_compat; [| lra].
    apply Qmult_le_0_compat; [exact Ex | apply inject_Z_nonneg; exact Hu].
Qed.

(** X18. When no amount typed in the form is negative and the dialogs
    answer within their limits, nothing on the pay slip is negative except
    possibly the net amount, and the total of the deductions is exactly
    the sum of the deductions listed. *)
Theorem payslip_without_negative_amounts (self : Calculadora) (u : Usuario)
    (h : Holerite) :
  sem_negativos self = true ->
  respeita_limites u (calcular self) = true ->
  executa u (calcular self) = Popup h ->
  Forall (fun p => 0 <= snd p) (recebimentos h) /\
  Forall (fun p => 0 <= snd p) (descontos h) /\
  0 <= total_recebimento h /\
  0 <= total_desconto h /\
  total_desconto h == soma (descontos h).
Proof.
  intros Hneg Hr H.
  apply sem_negativos_campos in Hneg.
  destruct Hneg as (Nv & Nh & Np & Npen & Nvrf & Nvr & Nvaf & Nva & Nvtf & Nvt
                    & Nah & Nam & Nf).
  assert (Hano : negb (String.length (ano self) =? 4)%nat
                 || negb (isdigit (ano self)) = false).
  { rewrite executa_calcular in H.
    destruct (negb (String.length (ano self) =? 4)%nat || negb (isdigit (ano self)));
      [discriminate | reflexivity]. }
  apply executa_popup_por_contrato in H.
  destruct H as (m & v & dias & salario & dias_calc & Em & Ev & Ed & Es & H).
  destruct (respeita_limites_dias_calc self u m v dias salario dias_calc
              Hano Em Ev Ed Hr Es) as [Hdc Hsal].
  pose proof (converte_nonneg _ _ Nv Ev) as Hv.
  assert (Hs : 0 <= salario).
  { destruct Hsal as [-> | ->]; [exact Hv |].
    apply Qmult_le_0_compat; [exact Hv | apply inject_Z_nonneg; lia]. }
  pose proof (ajuste_pensao_nonneg self salario Npen Hs) as Hpen.
  set (pensao := ajuste_pensao self salario) in *. clearbody pensao.
  destruct H as [[_ H] | [[_ H] | [_ (t & Ht & H)]]].
  - apply calcular_clt_valores in H.
    destruct H as (h_extras & perc_extra & atraso_h & atraso_m & faltas_ & vt
                   & uteis & desc_vr & desc_va & H).
    cbv zeta in H.
    destruct H as (Eh & Ep & _ & Eah & Eam & Ef & Evt & Eu & Evr & Eva & ->).
    apply (converte_ou_nonneg _ _ _ Nh) in Eh; [| lra].
    apply (converte_ou_nonneg _ _ _ Np) in Ep; [| lra].
    apply (converte_ou_nonneg _ _ _ Nah) in Eah; [| lra].
    apply (converte_ou_nonneg _ _ _ Nam) in Eam; [| lra].
    apply (converte_ou_nonneg _ _ _ Nf) in Ef; [| lra].
    assert (Hu : (0 <= uteis)%Z).
    { apply count_uteis_ok in Eu. destruct Eu as (_ & _ & d' & _ & _ & ->).
      apply dias_uteis_desde_bounds. }
    apply (desconto_vale_nonneg _ _ _ _ _ Nvrf Nvr Hu) in Evr.
    apply (desconto_vale_nonneg _ _ _ _ _ Nvaf Nva Hu) in Eva.
    pose proof (monthrange_ok _ _ _ Ed) as [_ Hdias].
    assert (Hvh : 0 <= val_hora (if (tipo_valor self =? "diario")%string
                                 then v else salario / inject_Z dias_calc)).
    { apply val_hora_nonneg.
      destruct (tipo_valor self =? "diario")%string; [exact Hv |].
      apply Qdiv_inject_Z_nonneg; [exact Hs | lia]. }
    set (v_h := val_hora _) in *. clearbody v_h.
    assert (Hx : 0 <= (if Qltb 0 h_extras
                       then calc_h_extra v_h h_extras perc_extra else 0)).
    { destruct (Qltb 0 h_extras); [| lra]. unfold calc_h_extra.
      apply Qmult_le_0_compat; [apply Qmult_le_0_compat; assumption |].
      assert (0 <= perc_extra / 100) by (apply Qdiv_nonneg; lra).
      lra. }
    set (extras := if Qltb 0 h_extras then _ else 0) in *. clearbody extras.
    assert (Ha : 0 <= v_h * (atraso_h + atraso_m / 60)).
    { apply Qmult_le_0_compat; [exact Hvh |].
      assert (0 <= atraso_m / 60) by (apply Qdiv_nonneg; lra).
      lra. }
    set (atraso := (v_h * _)%Q) in *. clearbody atraso.
    assert (Hfa : 0 <= (if (tipo_valor self =? "diario")%string
                        then v * faltas_
                        else salario / inject_Z dias * faltas_)).
    { destruct (tipo_valor self =? "diario")%string;
        apply Qmult_le_0_compat; try assumption.
      apply Qdiv_inject_Z_nonneg; [exact Hs | lia]. }
    set (falta := if (tipo_valor self =? "diario")%string then _ else _) in *.
    clearbody falta.
    assert (Hb : 0 <= salario + extras) by lra.
    pose proof (calc_inss_nonneg _ Hb) as Hinss.
    pose proof (calc_irrf_nonneg (salario + extras - calc_inss (salario + extras)))
      as Hirrf.
    set (inss := calc_inss _) in *. clearbody inss.
    set (irrf := calc_irrf _) in *. clearbody irrf.
    assert (Hvt0 : 0 <= vt).
    { destruct (vt_fixo self).
      - injection Evt as <-. apply converte_except_nonneg. exact Nvtf.
      - destruct (converte_ou (vt_percentual self) 6) as [pct |] eqn:Epct;
          cbn [bind] in Evt; [| discriminate].
        injection Evt as <-.
        apply (converte_ou_nonneg _ _ _ Nvt) in Epct; [| lra].
        apply Qdiv_nonneg; [| lra].
        apply Qmult_le_0_compat; [exact Hb |].
        destruct (Qltb 6 pct); lra. }
    cbn [recebimentos descontos total_recebimento total_desconto].
    split; [| split; [| split; [| split]]].
    + apply Forall_app. split; [| apply Forall_se_positivo].
      repeat constructor; cbn [snd]; lra.
    + repeat (apply Forall_app; split);
        try apply Forall_se_positivo;
        repeat constructor; cbn [snd]; lra.
    + exact Hb.
    + lra.
    + rewrite !soma_app. cbn [soma].
      destruct (soma_se_positivo "Pensão Alimentícia" pensao) as (_ & _ & S1).
      destruct (soma_se_positivo "Vale Refeição" desc_vr) as (_ & _ & S2).
      destruct (soma_se_positivo "Vale Alimentação" desc_va) as (_ & _ & S3).
      destruct (soma_se_positivo "Atraso" atraso) as (_ & _ & S4).
      destruct (soma_se_positivo "Faltas" falta) as (_ & _ & S5).
      rewrite (S1 Hpen), (S2 Evr), (S3 Eva), (S4 Ha), (S5 Hfa). ring.
  - unfold calcular_pj in H. cbv zeta in H. injection H as <-.
    cbn [recebimentos descontos total_recebimento total_desconto].
    assert (0 <= salario * 0.15 /\ 0 <= salario * 0.09 /\
            0 <= salario * 0.065 /\ 0 <= salario * 0.035) as (T1 & T2 & T3 & T4)
      by (repeat split; lra).
    split; [| split; [| split; [| split]]].
    + repeat constructor; cbn [snd]; lra.
    + change (Forall (fun p : string * Q => 0 <= snd p)
                ([("IRPJ (15%)"%string, salario * 0.15);
                  ("CSLL (9%)"%string, salario * 0.09);
                  ("PIS/COFINS (6,5%)"%string, salario * 0.065);
                  ("ISS (3,5%)"%string, salario * 0.035)]
                 ++ se_positivo "Pensão Alimentícia" pensao)).
      apply Forall_app. split; [| apply Forall_se_positivo].
      repeat constructor; cbn [snd]; assumption.
    + exact Hs.
    + lra.
    + change (salario * 0.15 + salario * 0.09 + salario * 0.065
              + salario * 0.035 + pensao
              == soma ([("IRPJ (15%)"%string, salario * 0.15);
                        ("CSLL (9%)"%string, salario * 0.09);
                        ("PIS/COFINS (6,5%)"%string, salario * 0.065);
                        ("ISS (3,5%)"%string, salario * 0.035)]
                       ++ se_positivo "Pensão Alimentícia" pensao)).
      rewrite soma_app. cbn [soma].
      destruct (soma_se_positivo "Pensão Alimentícia" pensao) as (_ & _ & S1).
      rewrite (S1 Hpen). ring.
  - unfold calcular_mei in H. cbn [executa] in H. rewrite Ht in H.
    cbv zeta in H. injection H as <-.
    cbn [recebimentos descontos total_recebimento total_desconto].
    set (das := if (t =? 1)%Z then _ else _).
    assert (Hdas : 0 <= das).
    { unfold das, MEI_INSS, MEI_ICMS, MEI_ISS.
      destruct (t =? 1)%Z; [| destruct (t =? 2)%Z]; lra. }
    clearbody das.
    split; [| split; [| split; [| split]]].
    + repeat constructor; cbn [snd]; lra.
    + change (Forall (fun p : string * Q => 0 <= snd p)
                ([("DAS (mensal)"%string, das)]
                 ++ se_positivo "Pensão Alimentícia" pensao)).
      apply Forall_app. split; [| apply Forall_se_positivo].
      repeat constructor; cbn [snd]; assumption.
    + exact Hs.
    + lra.
    + change (das + pensao
              == soma ([("DAS (mensal)"%string, das)]
                       ++ se_positivo "Pensão Alimentícia" pensao)).
      rewrite soma_app. cbn [soma].
      destruct (soma_se_positivo "Pensão Alimentícia" pensao) as (_ & _ & S1).
      rewrite (S1 Hpen). ring.
Qed.

Lemma payslip_without_negative_amounts_witness :
  let h := holerite_de (executa sem_resposta (calcular clt_atraso_faltas)) in
  executa sem_resposta (calcular clt_atraso_faltas) = Popup h /\
  Forall (fun p => 0 <= snd p) (recebimentos h) /\
  Forall (fun p => 0 <= snd p) (descontos h) /\
  0 <= total_recebimento h /\
  0 <= total_desconto h /\
  total_desconto h == soma (descontos h).
Proof.
  intros h.
  assert (E : executa sem_resposta (calcular clt_atraso_faltas) = Popup h)
    by (vm_compute; reflexivity).
  split; [exact E |].
  apply (payslip_without_negative_amounts clt_atraso_faltas sem_resposta h);
    first [exact E | vm_compute; reflexivity].
Defined.

(** ** Vouchers and alimony *)



(** X20. Under every contract the alimony is settled before the branch of
    the contract, on the base salary (the revenue, under PJ and MEI): a
    percentage of it, or the amount typed in the fixed mode, or 0 when the
    text is no number or no alimony is paid.  The pay slip lists it when
    it is positive. *)
Theorem alimony_under_every_contract (self : Calculadora) (u : Usuario)
    (h : Holerite) :
  executa u (calcular self) = Popup h ->
  exists salario pensao,
    valor_de (if (tipo_contrato self =? "CLT")%string
              then "Salário Base"%string else "Faturamento"%string)
             (recebimentos h) = Some salario /\
    pensao =
      (if paga_pensao self then
         if (tipo_pensao self =? "percent")%string
         then salario * converte_except (valor_pensao self) / 100
         else converte_except (valor_pensao self)
       else 0) /\
    valor_de "Pensão Alimentícia" (descontos h)
      = (if Qltb 0 pensao then Some pensao else None).
Proof.
  intros H. apply executa_popup_por_contrato in H.
  destruct H as (m & v & dias & salario & dias_calc & _ & _ & _ & _ & H).
  exists salario, (ajuste_pensao self salario).
  split; [| split; [reflexivity |]];
    destruct H as [[E H] | [[E H] | [E (t & Ht & H)]]]; rewrite ?E;
    cbn [String.eqb Ascii.eqb Bool.eqb].
  - apply calcular_clt_popup in H.
    destruct H as (? & ? & ? & ? & ? & ? & ? & ? & ? & _ & _ & _ & _ & _ & _
                   & _ & _ & Hrec & _).
    rewrite Hrec. reflexivity.
  - unfold calcular_pj in H. cbv zeta in H. injection H as <-. reflexivity.
  - unfold calcular_mei in H. cbn [executa] in H. rewrite Ht in H.
    cbv zeta in H. injection H as <-. reflexivity.
  - apply calcular_clt_popup in H.
    destruct H as (? & ? & ? & ? & ? & ? & ? & ? & ? & _ & _ & _ & _ & _ & _
                   & _ & _ & _ & Hdesc & _).
    rewrite Hdesc. generalize (ajuste_pensao self salario). intros p.
    casos_listados.
  - unfold calcular_pj in H. cbv zeta in H. injection H as <-.
    cbn [descontos]. generalize (ajuste_pensao self salario). intros p.
    casos_listados.
  - unfold calcular_mei in H. cbn [executa] in H. rewrite Ht in H.
    cbv zeta in H. injection H as <-.
    cbn [descontos]. generalize (ajuste_pensao self salario). intros p.
    casos_listados.
Qed.

Lemma alimony_under_every_contract_witness :
  let h := holerite_de (executa sem_resposta (calcular clt_extras_pensao)) in
  executa sem_resposta (calcular clt_extras_pensao) = Popup h /\
  exists salario pensao,
    valor_de "Salário Base" (recebimentos h) = Some salario /\
    pensao = salario * 10 / 100 /\
    valor_de "Pensão Alimentícia" (descontos h)
      = (if Qltb 0 pensao then Some pensao else None).
Proof.
  intros h.
  assert (E : executa sem_resposta (calcular clt_extras_pensao) = Popup h)
    by (vm_compute; reflexivity).
  split; [exact E |].
  apply (alimony_under_every_contract clt_extras_pensao sem_resposta h).
  exact E.
Defined.

(** ** [formatar] *)
















(** The texts of some amounts. *)
Example formatar_examples :
  map (fun v => string_of_list_ascii (formatar v))
      [None; Some 0; Some 1234567.891; Some (-1234.5); Some 0.125;
       Some 24.29775; Some 1000]
  = ["R$ 0,00"; "R$ 0,00"; "R$ 1.234.567,89"; "R$ -1.234,50"; "R$ 0,12";
     "R$ 24,30"; "R$ 1.000,00"]%string.
Proof. vm_compute. reflexivity. Qed.

(** ** When a pay slip is shown *)

(** A well-formed header brings the run to the branch of the contract. *)
Lemma entrada_valida_iff (self : Calculadora) (u : Usuario) :
  entrada_valida self u = true <->
  negb (String.length (ano self) =? 4)%nat || negb (isdigit (ano self)) = false /\
  exists m v dias salario dias_calc,
    converte (mes self) = Ok m /\
    converte (valor self) = Ok v /\
    Calendar.monthrange (int_digits 0 (ano self)) m = Ok dias /\
    salario_e_dias self u v dias = Some (salario, dias_calc).
Proof.
  unfold entrada_valida, salario_e_dias.
  destruct (String.length (ano self) =? 4)%nat; cbn [negb orb andb];
    [| split; [discriminate | intros [H _]; discriminate]].
  destruct (isdigit (ano self)); cbn [negb orb andb];
    [| split; [discriminate | intros [H _]; discriminate]].
  destruct (converte (mes self)) as [m | e];
    [| split; [discriminate | intros (_ & ? & ? & ? & ? & ? & H & _); discriminate]].
  destruct (converte (valor self)) as [v | e];
    [| split; [discriminate
              | intros (_ & ? & ? & ? & ? & ? & _ & H & _); discriminate]].
  destruct (Calendar.monthrange (int_digits 0 (ano self)) m) as [dias | e] eqn:Ed.
  - destruct (tipo_valor self =? "diario")%string;
      [destruct (tipo_calculo self =? "mes")%string |]; cbn [negb andb].
    + split; [| reflexivity]. intros _. split; [reflexivity |].
      exists m, v, dias. eauto 6.
    + destruct (dia_ini u) as [d |].
      * split; [| reflexivity]. intros _. split; [reflexivity |].
        exists m, v, dias. eauto 6.
      * split; [discriminate |].
        intros (_ & m' & v' & dias' & s & dc & _ & _ & _ & H). discriminate.
    + split; [| reflexivity]. intros _. split; [reflexivity |].
      exists m, v, dias. eauto 6.
  - split; [discriminate |].
    intros (_ & m' & v' & dias' & s & dc & Em & _ & Ed' & _).
    injection Em as <-. rewrite Ed in Ed'. discriminate.
Qed.

(** X22. A PJ calculation shows a pay slip exactly when the year, the
    month and the base value are well formed and the start-day dialog, if
    asked, is answered; a MEI calculation needs the activity dialog
    answered as well.  Nothing else in the form can make them fail. *)
Theorem pj_and_mei_show_a_pay_slip_iff (self : Calculadora) (u : Usuario) :
  (tipo_contrato self = "PJ"%string ->
   ((exists h, executa u (calcular self) = Popup h) <->
    entrada_valida self u = true)) /\
  (tipo_contrato self = "MEI"%string ->
   ((exists h, executa u (calcular self) = Popup h) <->
    entrada_valida self u = true /\ tipo_ativ u <> None)).
Proof.
  split; intros Hc; split.
  - intros (h & H). apply entrada_valida_iff.
    split.
    { rewrite executa_calcular in H.
      destruct (negb (String.length (ano self) =? 4)%nat || negb (isdigit (ano self)));
        [discriminate | reflexivity]. }
    apply executa_popup_por_contrato in H.
    destruct H as (m & v & dias & salario & dias_calc & Em & Ev & Ed & Es & _).
    exists m, v, dias, salario, dias_calc. auto.
  - intros H. apply entrada_valida_iff in H.
    destruct H as (Hano & m & v & dias & salario & dias_calc & Em & Ev & Ed & Es).
    rewrite executa_calcular, Hano, Em, Ev, Ed, Es, Hc.
    cbn [String.eqb Ascii.eqb Bool.eqb]. cbv zeta. unfold calcular_pj.
    eexists. reflexivity.
  - intros (h & H). split.
    + apply entrada_valida_iff.
      split.
      { rewrite executa_calcular in H.
        destruct (negb (String.length (ano self) =? 4)%nat || negb (isdigit (ano self)));
          [discriminate | reflexivity]. }
      apply executa_popup_por_contrato in H.
      destruct H as (m & v & dias & salario & dias_calc & Em & Ev & Ed & Es & _).
      exists m, v, dias, salario, dias_calc. auto.
    + apply executa_popup_por_contrato in H.
      destruct H as (m & v & dias & salario & dias_calc & _ & _ & _ & _ & H).
      destruct H as [[E _] | [[E _] | [_ (t & Ht & _)]]];
        [rewrite Hc in E; discriminate | rewrite Hc in E; discriminate |].
      rewrite Ht. discriminate.
  - intros [H Ht]. apply entrada_valida_iff in H.
    destruct H as (Hano & m & v & dias & salario & dias_calc & Em & Ev & Ed & Es).
    rewrite executa_calcular, Hano, Em, Ev, Ed, Es, Hc.
    cbn [String.eqb Ascii.eqb Bool.eqb]. cbv zeta. unfold calcular_mei.
    cbn [executa]. destruct (tipo_ativ u) as [t |]; [| contradiction].
    eexists. reflexivity.
Qed.

Lemma pj_and_mei_show_a_pay_slip_iff_witness :
  (exists h, executa sem_resposta
               (calcular (formulario "PJ" "diario" "mes" 10000 4 "2025")) = Popup h) /\
  (exists h, executa ambos
               (calcular (formulario "MEI" "total" "mes" 5000 4 "2025")) = Popup h).
Proof.
  split.
  - destruct (pj_and_mei_show_a_pay_slip_iff
                (formulario "PJ" "diario" "mes" 10000 4 "2025") sem_resposta)
      as [Hpj _].
    apply (Hpj eq_refl). reflexivity.
  - destruct (pj_and_mei_show_a_pay_slip_iff
                (formulario "MEI" "total" "mes" 5000 4 "2025") ambos)
      as [_ Hmei].
    apply (Hmei eq_refl). split; [reflexivity | discriminate].
Defined.

(** A CLT run with a well-formed header and fields that all convert gets
    to the call of [count_uteis]: it shows a pay slip when the call returns
    and ends in the handler with the exception of the call otherwise. *)
Lemma executa_clt_count_uteis (self : Calculadora) (u : Usuario) :
  tipo_contrato self = "CLT"%string ->
  entrada_valida self u = true ->
  campos_clt_validos self = true ->
  exists m,
    converte (mes self) = Ok m /\
    match count_uteis (int_digits 0 (ano self)) m 1 with
    | Ok _ => exists h, executa u (calcular self) = Popup h
    | Raise e => executa u (calcular self) = ErroExcecao e
    end.
Proof.
  intros Hclt Hv Hc.
  apply entrada_valida_iff in Hv.
  destruct Hv as (Hano & m & v & dias & salario & dias_calc & Em & Ev & Ed & Es).
  exists m. split; [exact Em |].
  rewrite executa_calcular, Hano, Em, Ev, Ed, Es, Hclt.
  cbn [String.eqb Ascii.eqb Bool.eqb]. cbv zeta.
  unfold campos_clt_validos in Hc. rewrite !andb_true_iff in Hc.
  destruct Hc as ((((((((C1 & C2) & C3) & C4) & C5) & C6) & C7) & C8) & C9).
  apply negb_true_iff in C3.
  unfold calcular_clt.
  rewrite (proj1 (converte_ou_convertivel _ _) C1). cbn [tentar_saida].
  rewrite (proj1 (converte_ou_convertivel _ _) C2). cbn [tentar_saida].
  rewrite C3.
  rewrite (proj1 (converte_ou_convertivel _ _) C4). cbn [tentar_saida].
  rewrite (proj1 (converte_ou_convertivel _ _) C5). cbn [tentar_saida].
  rewrite (proj1 (converte_ou_convertivel _ _) C6). cbn [tentar_saida].
  assert (P : forall (b : bool) (e_fixo e : entry Q) (d : Q) (k : Q -> Q),
             b || convertivel e = true ->
             exists r, (if b then Ok (converte_except e_fixo)
                        else bind (converte_ou e d) (fun x => Ok (k x))) = Ok r).
  { intros [] e_fixo e d k Hb; [eauto |].
    cbn [orb] in Hb. rewrite (proj1 (converte_ou_convertivel _ _) Hb).
    cbn [bind]. eauto. }
  match goal with
  | |- context [bind (converte_ou (vt_percentual self) 6)
                     (fun x => Ok (@?k x))] =>
      destruct (P (vt_fixo self) (valor_vt_fixo self) (vt_percentual self) 6
                  k C7) as (vt & Evt)
  end.
  cbv beta in Evt. rewrite Evt. cbn [tentar_saida].
  destruct (count_uteis (int_digits 0 (ano self)) m 1) as [uteis | e];
    cbn [tentar_saida]; [| reflexivity].
  destruct (P (vr_fixo self) (valor_vr_fixo self) (valor_vr self) 0
              (fun x => x * inject_Z uteis * 0.2) C8) as (dvr & Evr).
  cbv beta in Evr. rewrite Evr. cbn [tentar_saida].
  destruct (P (va_fixo self) (valor_va_fixo self) (valor_va self) 0
              (fun x => x * inject_Z uteis * 0.2) C9) as (dva & Eva).
  cbv beta in Eva. rewrite Eva. cbn [tentar_saida].
  eexists. reflexivity.
Qed.

(** The year of a well-formed header is a number from 0 to 9999. *)
Lemma entrada_valida_ano (self : Calculadora) (u : Usuario) :
  entrada_valida self u = true -> (0 <= int_digits 0 (ano self) <= 9999)%Z.
Proof.
  intros Hv. apply entrada_valida_iff in Hv. destruct Hv as [Hano _].
  assert (Hall : all_digits (ano self) = true).
  { apply orb_false_elim in Hano. destruct Hano as [_ Hd].
    apply negb_false_iff in Hd. unfold isdigit in Hd.
    destruct (ano self); [discriminate | exact Hd]. }
  assert (Hlen : String.length (ano self) = 4%nat).
  { apply orb_false_elim in Hano. destruct Hano as [Hl _].
    apply negb_false_iff in Hl. apply Nat.eqb_eq in Hl. exact Hl. }
  pose proof (int_digits_bounds (ano self) 0 Hall ltac:(lia)) as Hb.
  rewrite Hlen in Hb. cbn in Hb. lia.
Qed.

(** X23. A CLT calculation shows a pay slip exactly when the year, the
    month and the base value are well formed, the start-day dialog, if
    asked, is answered, the year is not 0000, the month is not December
    9999, every field converted outside a [try] holds a number or is empty
    (overtime hours and percentage, lateness, absences, and the percentage
    or daily value of each voucher that is not in the fixed mode), and
    overtime hours above 0 come with a percentage other than 0.  With all
    the rest in order, the year 0000 ends the run in the handler with the
    [ValueError] of [count_uteis], and December 9999 with its
    [OverflowError]. *)
Theorem clt_shows_a_pay_slip_iff (self : Calculadora) (u : Usuario) :
  tipo_contrato self = "CLT"%string ->
  ((exists h, executa u (calcular self) = Popup h) <->
   entrada_valida self u = true /\
   (1 <= int_digits 0 (ano self))%Z /\
   ~ (int_digits 0 (ano self) = 9999%Z /\ mes self = Texto 12%Z) /\
   campos_clt_validos self = true) /\
  (entrada_valida self u = true ->
   campos_clt_validos self = true ->
   (int_digits 0 (ano self) = 0%Z ->
    executa u (calcular self) = ErroExcecao ValueError) /\
   (int_digits 0 (ano self) = 9999%Z -> mes self = Texto 12%Z ->
    executa u (calcular self) = ErroExcecao OverflowError)).
Proof.
  intros Hclt. split; [split |].
  - intros (h & H).
    assert (Hano : negb (String.length (ano self) =? 4)%nat
                   || negb (isdigit (ano self)) = false).
    { rewrite executa_calcular in H.
      destruct (negb (String.length (ano self) =? 4)%nat || negb (isdigit (ano self)));
        [discriminate | reflexivity]. }
    apply (executa_clt_valores self u h Hclt) in H.
    destruct H as (m & v & dias & salario & dias_calc & Em & Ev & Ed & Es & H).
    split.
    { apply entrada_valida_iff. split; [exact Hano |].
      exists m, v, dias, salario, dias_calc. auto. }
    apply calcular_clt_valores in H.
    destruct H as (h_extras & perc_extra & atraso_h & atraso_m & faltas_ & vt
                   & uteis & desc_vr & desc_va & H).
    cbv zeta in H.
    destruct H as (Eh & Ep & Echeck & Eah & Eam & Ef & Evt & Eu & Evr & Eva & _).
    apply count_uteis_ok in Eu. destruct Eu as (Hy & Hdez & _).
    split; [lia |]. split.
    { intros [H9 H12]. apply Hdez. split; [exact H9 |].
      rewrite H12 in Em. cbn [converte] in Em. congruence. }
    unfold campos_clt_validos.
    apply converte_ou_convertivel in Eh, Ep, Eah, Eam, Ef.
    destruct Eh as [-> ->], Ep as [-> ->], Eah as [-> _], Eam as [-> _],
      Ef as [-> _].
    rewrite Echeck. cbn [negb andb].
    assert (P : forall (b : bool) (e_fixo e : entry Q) (d : Q) (k : Q -> Q) (r : Q),
               (if b then Ok (converte_except e_fixo)
                else bind (converte_ou e d) (fun x => Ok (k x))) = Ok r ->
               b || convertivel e = true).
    { intros [] e_fixo e d k r Hr; [reflexivity |].
      destruct e; cbn in Hr |- *; try reflexivity; discriminate. }
    rewrite (P _ _ _ _ _ _ Evt), (P _ _ _ _ _ _ Evr), (P _ _ _ _ _ _ Eva).
    reflexivity.
  - intros (Hv & Hy & Hdez & Hc).
    pose proof (entrada_valida_ano self u Hv) as Hb.
    destruct (executa_clt_count_uteis self u Hclt Hv Hc) as (m & Em & H).
    apply entrada_valida_iff in Hv.
    destruct Hv as (_ & m' & v & dias & salario & dias_calc & Em' & _ & Ed & _).
    rewrite Em in Em'. injection Em' as <-.
    pose proof (monthrange_ok _ _ _ Ed) as [_ Hdias].
    assert (Eu : count_uteis (int_digits 0 (ano self)) m 1
                 = Ok (dias_uteis_desde
                         (Calendar.weekday (int_digits 0 (ano self)) m 1)
                         (Z.to_nat (dias - 1 + 1)))).
    { apply count_uteis_ok. split; [lia |]. split.
      - intros [H9 H12]. apply Hdez. split; [exact H9 |].
        destruct (mes self); cbn [converte] in Em; congruence.
      - exists dias. split; [exact Ed |]. split; [lia | reflexivity]. }
    rewrite Eu in H. exact H.
  - intros Hv Hc.
    destruct (executa_clt_count_uteis self u Hclt Hv Hc) as (m & Em & H).
    split.
    + intros H0. rewrite H0 in H.
      assert (Eu : count_uteis 0 m 1 = Raise ValueError) by reflexivity.
      rewrite Eu in H. exact H.
    + intros H9 H12. rewrite H9 in H. rewrite H12 in Em. cbn [converte] in Em.
      injection Em as <-.
      assert (Eu : count_uteis 9999 12 1 = Raise OverflowError) by reflexivity.
      rewrite Eu in H. exact H.
Qed.

Lemma clt_shows_a_pay_slip_iff_witness :
  (exists h, executa sem_resposta (calcular clt_atraso_faltas) = Popup h) /\
  campos_clt_validos clt_extras_sem_percentual = false /\
  ~ (exists h, executa sem_resposta (calcular clt_extras_sem_percentual) = Popup h) /\
  executa sem_resposta (calcular (formulario "CLT" "total" "mes" 5000 12 "9999"))
    = ErroExcecao OverflowError /\
  executa sem_resposta (calcular (formulario "CLT" "total" "mes" 5000 12 "0000"))
    = ErroExcecao ValueError.
Proof.
  split; [| split; [| split; [| split]]].
  - destruct (clt_shows_a_pay_slip_iff clt_atraso_faltas sem_resposta eq_refl)
      as [H _].
    apply H.
    split; [reflexivity |]. split; [vm_compute; discriminate |].
    split; [| reflexivity].
    intros [H9 _]. vm_compute in H9. discriminate H9.
  - reflexivity.
  - intros H.
    destruct (clt_shows_a_pay_slip_iff clt_extras_sem_percentual sem_resposta
                eq_refl) as [H' _].
    apply H' in H.
    destruct H as (_ & _ & _ & H). vm_compute in H. discriminate H.
  - destruct (clt_shows_a_pay_slip_iff
                (formulario "CLT" "total" "mes" 5000 12 "9999") sem_resposta
                eq_refl) as [_ H].
    destruct (H eq_refl eq_refl) as [_ H9].
    apply H9; reflexivity.
  - destruct (clt_shows_a_pay_slip_iff
                (formulario "CLT" "total" "mes" 5000 12 "0000") sem_resposta
                eq_refl) as [_ H].
    destruct (H eq_refl eq_refl) as [H0 _].
    apply H0; reflexivity.
Defined.
